(** * Price Alert (pricealert.py): a shallow embedding and its properties

    The program fetches product pages, extracts a pair
    (current price, optional regular price) with one extractor per shop,
    and prints a report.  The embedding follows the source function by
    function:

    - a Python [str] is a Rocq [string], one [ascii] per code point
      (text restricted to code points below 256; the non-breaking space
      is code point 160);
    - a Python [float] is a binary64 number ([PrimFloat.float]);
    - a document tree of the HTML library is the inductive type [node];
    - a raised exception is the [Raise] case of [result];
    - [main] is a computation on the store of shop dictionaries that
      returns or raises and leaves behind the text it printed and the
      URLs it requested. *)

From Stdlib Require Import ZArith String Ascii List Bool Lia Floats DecimalString.
Import ListNotations.

Local Open Scope string_scope.
Local Open Scope Z_scope.

(** ** Strings *)

Module PyStr.

Definition code (c : ascii) : N := N_of_ascii c.

(** The non-breaking space, written '\xa0' in the source. *)
Definition nbsp : ascii := ascii_of_N 160.

(** The line feed, written '\n'. *)
Definition lf : ascii := ascii_of_N 10.

(** [str.isspace] on one code point below 256; also the class \s of a
    regular expression over [str]. *)
Definition isspace (c : ascii) : bool :=
  let n := code c in
  ((9 <=? n) && (n <=? 13) || (28 <=? n) && (n <=? 32)
   || (n =? 133) || (n =? 160))%N.

(** The code points at which [str.splitlines] breaks a line. *)
Definition is_linebreak (c : ascii) : bool :=
  let n := code c in
  ((10 <=? n) && (n <=? 13) || (28 <=? n) && (n <=? 30) || (n =? 133))%N.

Definition isdigit (c : ascii) : bool :=
  let n := code c in ((48 <=? n) && (n <=? 57))%N.

Definition lower (c : ascii) : ascii :=
  let n := code c in
  if ((65 <=? n) && (n <=? 90))%N then ascii_of_N (n + 32) else c.

Fixpoint lower_str (s : string) : string :=
  match s with
  | EmptyString => EmptyString
  | String c r => String (lower c) (lower_str r)
  end.

(** [s.split(sep)] for a separator of one code point: the pieces
    between the separators, never an empty list. *)
Fixpoint split (sep : ascii) (s : string) : list string :=
  match s with
  | EmptyString => [EmptyString]
  | String c r =>
      if Ascii.eqb c sep then EmptyString :: split sep r
      else match split sep r with
           | p :: ps => String c p :: ps
           | [] => [String c EmptyString]
           end
  end.

(** [s.splitlines()]: the lines of [s] without their line breaks; a
    carriage return followed by a line feed is one break, and a final
    break does not open an empty last line. *)
Fixpoint splitlines_from (cur : string) (started : bool) (s : string)
  : list string :=
  match s with
  | EmptyString => if started then [cur] else []
  | String c r =>
      if is_linebreak c then
        match r with
        | String d r' =>
            if (code c =? 13)%N && (code d =? 10)%N
            then cur :: splitlines_from EmptyString false r'
            else cur :: splitlines_from EmptyString false r
        | EmptyString => [cur]
        end
      else splitlines_from (cur ++ String c EmptyString) true r
  end.

Definition splitlines (s : string) : list string :=
  splitlines_from EmptyString false s.

Fixpoint lstrip (s : string) : string :=
  match s with
  | String c r => if isspace c then lstrip r else s
  | EmptyString => EmptyString
  end.

(** The longest prefix of [s] made of code points satisfying [p], and
    what follows it. *)
Fixpoint span (p : ascii -> bool) (s : string) : string * string :=
  match s with
  | String c r =>
      if p c then let (a, b) := span p r in (String c a, b)
      else (EmptyString, s)
  | EmptyString => (EmptyString, EmptyString)
  end.

(** [s.startswith(p)] together with the rest of [s] after [p]. *)
Fixpoint strip_prefix (p s : string) : option string :=
  match p, s with
  | EmptyString, _ => Some s
  | String a p', String b s' =>
      if Ascii.eqb a b then strip_prefix p' s' else None
  | String _ _, EmptyString => None
  end.

End PyStr.

(** ** Floating-point numbers *)

Module PyFloat.

Import PyStr.

Fixpoint digits_value (acc : Z) (s : string) : Z :=
  match s with
  | EmptyString => acc
  | String c r => digits_value (10 * acc + (Z.of_N (code c) - 48)) r
  end.

(** An underscore in a numeric literal must stand between two digits. *)
Fixpoint underscores_ok (prev_digit : bool) (s : string) : bool :=
  match s with
  | EmptyString => true
  | String c r =>
      if Ascii.eqb c "_" then
        prev_digit
        && match r with String d _ => isdigit d | EmptyString => false end
        && underscores_ok false r
      else underscores_ok (isdigit c) r
  end.

Fixpoint remove_underscores (s : string) : string :=
  match s with
  | EmptyString => EmptyString
  | String c r =>
      if Ascii.eqb c "_" then remove_underscores r
      else String c (remove_underscores r)
  end.

(** An optional sign: [true] for a minus. *)
Definition take_sign (s : string) : bool * string :=
  match s with
  | String c r =>
      if Ascii.eqb c "-" then (true, r)
      else if Ascii.eqb c "+" then (false, r)
      else (false, s)
  | EmptyString => (false, s)
  end.

(** The decimal literal [digits [. digits] [e [sign] digits]], read as
    a pair (d, k) that stands for d * 10^k. *)
Definition parse_decimal (s : string) : option (Z * Z) :=
  let (ip, r1) := span isdigit s in
  let (fp, r2) :=
    match r1 with
    | String "." r => span isdigit r
    | _ => (EmptyString, r1)
    end in
  if (String.length ip + String.length fp =? 0)%nat then None else
  let d := digits_value 0 (ip ++ fp) in
  let k := - Z.of_nat (String.length fp) in
  match r2 with
  | EmptyString => Some (d, k)
  | String c r3 =>
      if Ascii.eqb (lower c) "e" then
        let (neg, r4) := take_sign r3 in
        let (ed, r5) := span isdigit r4 in
        match ed, r5 with
        | String _ _, EmptyString =>
            let e := digits_value 0 ed in
            Some (d, k + (if neg then - e else e))
        | _, _ => None
        end
      else None
  end.

(** The binary64 number nearest to (-1)^neg * d * 10^k, ties to even.
    For a negative k the quotient is computed with 64 extra bits and a
    sticky bit, so that one rounding gives the nearest number. *)
Definition nearest (neg : bool) (d k : Z) : float :=
  let sgn (m : Z) := if neg then - m else m in
  if d =? 0 then SF2Prim (S754_zero neg)
  else if 0 <=? k then
    SF2Prim (binary_normalize prec emax (sgn (d * 10 ^ k)) 0 neg)
  else
    let q := 10 ^ (- k) in
    let s := Z.log2 q + 65 in
    let n := d * 2 ^ s in
    let m := 2 * (n / q) + (if n mod q =? 0 then 0 else 1) in
    SF2Prim (binary_normalize prec emax (sgn m) (- s - 1) neg).

(** The code points [float] skips at both ends of its argument: the
    ASCII blanks 9 to 13 and 32, and the blanks above 127 (133 and 160),
    which it first turns into spaces.  The separators 28 to 31 are not
    skipped, although [str.isspace] holds of them. *)
Definition is_blank (c : ascii) : bool :=
  let n := code c in
  ((9 <=? n) && (n <=? 13) || (n =? 32) || (n =? 133) || (n =? 160))%N.

Fixpoint lstrip_blanks (s : string) : string :=
  match s with
  | String c r => if is_blank c then lstrip_blanks r else s
  | EmptyString => EmptyString
  end.

Fixpoint rstrip_blanks (s : string) : string :=
  match s with
  | EmptyString => EmptyString
  | String c r =>
      match rstrip_blanks r with
      | EmptyString => if is_blank c then EmptyString else String c EmptyString
      | r' => String c r'
      end
  end.

(** [float(s)] for a [str]: [None] stands for ValueError. *)
Definition of_string (s : string) : option float :=
  let (neg, body) := take_sign (rstrip_blanks (lstrip_blanks s)) in
  let low := lower_str body in
  if String.eqb low "inf" || String.eqb low "infinity" then
    Some (if neg then neg_infinity else infinity)
  else if String.eqb low "nan" then Some nan
  else if underscores_ok false body then
    match parse_decimal (remove_underscores body) with
    | Some (d, k) => Some (nearest neg d k)
    | None => None
    end
  else None.

(** [a > b] on floats. *)
Definition gt (a b : float) : bool := PrimFloat.ltb b a.

(** Rounding of the rational n / 2^e (e >= 0) to an integer, ties to
    even. *)
Definition round_half_even_shift (n e : Z) : Z :=
  let q := Z.shiftr n e in
  let r := n - Z.shiftl q e in
  let half := Z.shiftl 1 (e - 1) in
  if e =? 0 then n
  else if r <? half then q
  else if half <? r then q + 1
  else if Z.even q then q else q + 1.

Definition two_digits (n : Z) : string :=
  NilZero.string_of_uint (N.to_uint (Z.to_N (n / 10)))
  ++ NilZero.string_of_uint (N.to_uint (Z.to_N (n mod 10))).

(** ['{:.2f}'.format(x)]: the exact value of [x] rounded to two
    decimals, ties to even. *)
Definition format_2f (x : float) : string :=
  match Prim2SF x with
  | S754_nan => "nan"
  | S754_infinity neg => if neg then "-inf" else "inf"
  | S754_zero neg => if neg then "-0.00" else "0.00"
  | S754_finite neg m e =>
      let hundredths :=
        if 0 <=? e then Z.pos m * 2 ^ e * 100
        else round_half_even_shift (Z.pos m * 100) (- e) in
      (if neg then "-" else "")
      ++ NilZero.string_of_uint (N.to_uint (Z.to_N (hundredths / 100)))
      ++ "." ++ two_digits (hundredths mod 100)
  end.

End PyFloat.

(** ** Module-level objects and exceptions *)

(** The five extractor functions of the module. *)
Inductive extractor : Type :=
| Galaxus
| Baechli
| Intersport
| Primal
| Transa.

(** The objects bound to names in the module's global namespace:
    the extractors, the other functions and the imported callables, the
    remaining objects of the source (imported modules, typing forms, the
    USER_AGENT string), and the objects the interpreter or the script
    entry point binds, of which only hashability matters. *)
Inductive global_obj : Type :=
| GCheck (e : extractor)
| GFetch
| GLoadCheckFn
| GMain
| GBeautifulSoup
| GDocopt
| GNotCallable (name : string)
| GAmbient (hashable : bool).

(** The value stored under the key 'check_func' of a shop dictionary:
    the name read from the configuration, or the object that
    [_load_check_fn] stored in its place. *)
Inductive pyval : Type :=
| VStr (s : string)
| VObj (g : global_obj).

(** The exception classes the program can raise.  [CheckFuncNotFound v]
    is the ValueError of [_load_check_fn], whose message is
    'Check func not found: ' followed by the value [v] it looked up. *)
Inductive exn : Type :=
| ValueError
| CheckFuncNotFound (v : pyval)
| AssertionError
| KeyError (key : string)
| IndexError
| AttributeError
| TypeError
| HTTPError (status_code : Z)
| ConnectionError
| DocoptError.

(** The outcome of a call: a returned value or a raised exception. *)
Inductive result (A : Type) : Type :=
| Ok (a : A)
| Raise (e : exn).

Arguments Ok {A} a.
Arguments Raise {A} e.

Definition is_ok {A} (r : result A) : bool :=
  match r with Ok _ => true | Raise _ => false end.

(** ** Document trees *)

Module Soup.

(** The value of an attribute: a string, or a list of strings for a
    multi-valued attribute such as class. *)
Inductive attr_value : Type :=
| AttrStr (s : string)
| AttrList (l : list string).

(** A node of a parsed document: a piece of text or a tag with its
    attributes and contents. *)
#[warning="-register-all"] Inductive node : Type :=
| NavigableString (s : string)
| Tag (name : string) (attrs : list (string * attr_value))
      (contents : list node).

Definition contents (n : node) : list node :=
  match n with
  | NavigableString _ => []
  | Tag _ _ cs => cs
  end.

(** All nodes below [n], in document order. *)
Fixpoint descendants (n : node) : list node :=
  match n with
  | NavigableString _ => []
  | Tag _ _ cs =>
      (fix below (l : list node) : list node :=
         match l with
         | [] => []
         | c :: r => c :: descendants c ++ below r
         end) cs
  end.

(** [tag.get(key)]: the attribute, or [None]. *)
Fixpoint assoc (key : string) (l : list (string * attr_value))
  : option attr_value :=
  match l with
  | [] => None
  | (k, v) :: r => if String.eqb k key then Some v else assoc key r
  end.

Definition get (n : node) (key : string) : option attr_value :=
  match n with
  | NavigableString _ => None
  | Tag _ attrs _ => assoc key attrs
  end.

(** Whether an attribute value matches a search string: a string by
    equality, a list when one of its items or the items joined by
    spaces equal it, a missing attribute never. *)
Definition value_matches (v : option attr_value) (against : string) : bool :=
  match v with
  | None => false
  | Some (AttrStr s) => String.eqb s against
  | Some (AttrList l) =>
      existsb (fun item => String.eqb item against) l
      || String.eqb (String.concat " " l) against
  end.

(** The search criteria of [find]: an optional tag name and an
    optional (attribute, value) pair, as in
    [find('meta', property='product:price:amount')] or
    [find(class_='price')]. *)
Definition matches (name : option string) (attr : option (string * string))
           (n : node) : bool :=
  match n with
  | NavigableString _ => false
  | Tag tname attrs _ =>
      match name with Some w => String.eqb tname w | None => true end
      && match attr with
         | Some (k, against) => value_matches (assoc k attrs) against
         | None => true
         end
  end.

(** [n.find(name, recursive=..., **attr)]: the first matching tag
    among the descendants (or only the children) of [n], or [None]. *)
Definition find (name : option string) (attr : option (string * string))
           (recursive : bool) (n : node) : option node :=
  List.find (matches name attr)
            (if recursive then descendants n else contents n).

(** [n.text]: the strings below [n], concatenated. *)
Fixpoint text (n : node) : string :=
  match n with
  | NavigableString s => s
  | Tag _ _ cs =>
      (fix join (l : list node) : string :=
         match l with
         | [] => EmptyString
         | c :: r => text c ++ join r
         end) cs
  end.

End Soup.

(** ** Dictionaries with string keys, in insertion order *)

Definition dict (A : Type) : Type := list (string * A).

Fixpoint dict_get {A} (d : dict A) (key : string) : option A :=
  match d with
  | [] => None
  | (k, v) :: r => if String.eqb k key then Some v else dict_get r key
  end.

(** [d[key] = v]: an existing key keeps its place, a new one goes last. *)
Fixpoint dict_set {A} (key : string) (v : A) (d : dict A) : dict A :=
  match d with
  | [] => [(key, v)]
  | (k, w) :: r =>
      if String.eqb k key then (k, v) :: r else (k, w) :: dict_set key v r
  end.

(** ** Computations that may raise *)

Definition rbind {A B} (c : result A) (k : A -> result B) : result B :=
  match c with
  | Ok a => k a
  | Raise e => Raise e
  end.

Notation "x <~ c ;; k" := (rbind c (fun x => k))
  (at level 61, c at next level, right associativity).

(** A pair (current price, regular price or None). *)
Definition prices_t : Type := float * option float.

(** [float(x)] for a string. *)
Definition float_str (s : string) : result float :=
  match PyFloat.of_string s with
  | Some x => Ok x
  | None => Raise ValueError
  end.

(** [float(tag.get(key))]: a missing attribute gives [float(None)] and a
    multi-valued one [float] of a list, both a TypeError. *)
Definition float_attr (v : option Soup.attr_value) : result float :=
  match v with
  | Some (Soup.AttrStr s) => float_str s
  | Some (Soup.AttrList _) => Raise TypeError
  | None => Raise TypeError
  end.

(** [x.attribute] or [x.method(...)] where [x] may be None. *)
Definition not_none {A} (x : option A) : result A :=
  match x with
  | Some a => Ok a
  | None => Raise AttributeError
  end.

(** ** The extractors, on a fetched document or text *)

Definition galaxus_prices (soup : Soup.node) : result prices_t :=
  m <~ not_none (Soup.find (Some "meta")
                   (Some ("property", "product:price:amount")) true soup) ;;
  current <~ float_attr (Soup.get m "content") ;;
  match Soup.find (Some "meta")
          (Some ("property", "og:price:standard_amount")) true soup with
  | Some standard_amount_meta =>
      regular <~ float_attr (Soup.get standard_amount_meta "content") ;;
      Ok (current, Some regular)
  | None => Ok (current, None)
  end.

Definition baechli_prices (soup : Soup.node) : result prices_t :=
  m <~ not_none (Soup.find (Some "meta")
                   (Some ("property", "product:price:amount")) true soup) ;;
  current <~ float_attr (Soup.get m "content") ;;
  Ok (current, None).

(** The inner function of [check_intersport]. *)
Definition _get_price (element : Soup.node) : result float :=
  amount <~ not_none (Soup.find None (Some ("class", "amount")) true element) ;;
  let parts := PyStr.split PyStr.nbsp (Soup.text amount) in
  match nth_error parts 0 with
  | None => Raise IndexError
  | Some p0 =>
      if String.eqb p0 "CHF" then
        match nth_error parts 1 with
        | Some p1 => float_str p1
        | None => Raise IndexError
        end
      else Raise AssertionError
  end.

Definition intersport_prices (soup : Soup.node) : result prices_t :=
  summary <~ not_none (Soup.find (Some "div")
                         (Some ("class", "entry-summary")) true soup) ;;
  prices <~ not_none (Soup.find None (Some ("class", "price")) true summary) ;;
  let regular := Soup.find (Some "del") None false prices in
  let current := Soup.find (Some "ins") None false prices in
  match regular, current with
  | Some regular, Some current =>
      c <~ _get_price current ;;
      r <~ _get_price regular ;;
      Ok (c, Some r)
  | _, _ =>
      c <~ _get_price prices ;;
      Ok (c, None)
  end.

(** [re.findall(r'[\d\.]+', s)[0]]: the first run of digits and dots. *)
Fixpoint first_number_run (s : string) : option string :=
  match s with
  | EmptyString => None
  | String c r =>
      if PyStr.isdigit c || Ascii.eqb c "." then
        Some (fst (PyStr.span (fun d => PyStr.isdigit d || Ascii.eqb d ".") s))
      else first_number_run r
  end.

Definition primal_prices (soup : Soup.node) : result prices_t :=
  m <~ not_none (Soup.find (Some "meta") (Some ("itemprop", "price")) true soup) ;;
  current <~ float_attr (Soup.get m "content") ;;
  match Soup.find (Some "span") (Some ("class", "price--line-through")) true soup with
  | Some regular_element =>
      match first_number_run (Soup.text regular_element) with
      | Some run => regular <~ float_str run ;; Ok (current, Some regular)
      | None => Raise IndexError
      end
  | None => Ok (current, None)
  end.

(** [re.match] of a line against the pattern of [check_transa]: any
    blanks, the key base or promo (group 1), a colon, a space, a quote,
    CHF, a space, any code points but quotes (group 2), a quote, a comma
    and the end of the line.  The result is the two groups of a matching
    line.  The leading blanks and the amount are matched greedily; what follows each of them cannot start with a
    code point of the repeated class, so no shorter repetition matches.
    The final $ also accepts one line feed before the end. *)
Definition price_line_groups (key : string) (s : string) : option (string * string) :=
  match PyStr.strip_prefix (key ++ ": 'CHF ") s with
  | Some r =>
      let (amount, r') := PyStr.span (fun c => negb (Ascii.eqb c "'")) r in
      match PyStr.strip_prefix "'," r' with
      | Some e =>
          if String.eqb e "" || String.eqb e (String PyStr.lf "")
          then Some (key, amount) else None
      | None => None
      end
  | None => None
  end.

Definition match_price_line (line : string) : option (string * string) :=
  let s := PyStr.lstrip line in
  match price_line_groups "base" s with
  | Some g => Some g
  | None => price_line_groups "promo" s
  end.

(** [filter(None, [re.match(...) for line in ...])]: the matches. *)
Fixpoint price_matches (lines : list string) : list (string * string) :=
  match lines with
  | [] => []
  | line :: r =>
      match match_price_line line with
      | Some g => g :: price_matches r
      | None => price_matches r
      end
  end.

(** The loop [for match in matches: prices[group 1] = float(group 2)]. *)
Fixpoint collect_prices (matches : list (string * string)) (prices : dict float)
  : result (dict float) :=
  match matches with
  | [] => Ok prices
  | (k, amount) :: r =>
      x <~ float_str amount ;;
      collect_prices r (dict_set k x prices)
  end.

Definition transa_prices (text : string) : result prices_t :=
  prices <~ collect_prices (price_matches (PyStr.splitlines text)) [] ;;
  match dict_get prices "promo" with
  | Some promo => Ok (promo, dict_get prices "base")
  | None => Raise (KeyError "promo")
  end.

(** ** The configuration and the state of a run *)

(** A shop dictionary of the configuration, with its keys 'name' and
    'check_func'. *)
Record shop : Type := mkShop {
  name : string;
  check_func : pyval
}.

(** A product of the configuration: its name and its dictionary from
    shop identifiers to URLs. *)
Record product : Type := mkProduct {
  product_name : string;
  product_shops : dict string
}.

(** Shop dictionaries are objects of the store; the configuration and
    the registry built by [main] hold references to them. *)
Definition loc : Type := nat.

Record config : Type := mkConfig {
  shops : dict loc;
  products : list product
}.

(** The store of shop dictionaries. *)
Definition store : Type := loc -> shop.

(** What a computation leaves behind: the value it returns or the
    exception it raises, the store, the text printed to the standard
    output and the URLs requested, in order. *)
Record outcome (A : Type) : Type := mkOutcome {
  value : result A;
  heap : store;
  stdout : string;
  requests : list string
}.

Arguments mkOutcome {A} value heap stdout requests.
Arguments value {A} o.
Arguments heap {A} o.
Arguments stdout {A} o.
Arguments requests {A} o.

(** A computation on the store that prints, requests, and returns or
    raises. *)
Definition M (A : Type) : Type := store -> outcome A.

Definition ret {A} (a : A) : M A := fun h => mkOutcome (Ok a) h "" [].

Definition raise {A} (e : exn) : M A := fun h => mkOutcome (Raise e) h "" [].

Definition bind {A B} (c : M A) (k : A -> M B) : M B :=
  fun h =>
    let o := c h in
    match value o with
    | Ok a =>
        let o' := k a (heap o) in
        mkOutcome (value o') (heap o')
                  (stdout o ++ stdout o') (requests o ++ requests o')
    | Raise e => mkOutcome (Raise e) (heap o) (stdout o) (requests o)
    end.

Definition lift {A} (r : result A) : M A := fun h => mkOutcome r h "" [].

Notation "x <- c ;; k" := (bind c (fun x => k))
  (at level 61, c at next level, right associativity).
Notation "c ;;; k" := (bind c (fun _ => k))
  (at level 61, right associativity).

(** [shop[...]] reads and [shop['check_func'] = v] on a stored shop. *)
Definition deref (l : loc) : M shop := fun h => mkOutcome (Ok (h l)) h "" [].

Definition update (h : store) (l : loc) (v : pyval) : store :=
  fun l' => if Nat.eqb l' l then mkShop (name (h l)) v else h l'.

Definition set_check_func (l : loc) (v : pyval) : M unit :=
  fun h => mkOutcome (Ok tt) (update h l v) "" [].

(** [print(s, end='')]. *)
Definition print (s : string) : M unit := fun h => mkOutcome (Ok tt) h s [].

Definition newline : string := String PyStr.lf EmptyString.

Fixpoint for_each {A} (l : list A) (body : A -> M unit) : M unit :=
  match l with
  | [] => ret tt
  | a :: r => body a ;;; for_each r body
  end.

(** An HTTP response: its status code and its body. *)
Record response : Type := mkResponse {
  status_code : Z;
  text : string
}.

(** [response.raise_for_status()] of the HTTP library raises HTTPError
    for the client and server error codes, 400 to 599. *)
Definition raise_for_status (r : response) : result unit :=
  if (400 <=? status_code r) && (status_code r <? 600)
  then Raise (HTTPError (status_code r))
  else Ok tt.

(** What [fetch] returns: the text when [raw], a document otherwise. *)
Definition fetched (raw : bool) : Type := if raw then string else Soup.node.

Section Program.

(** The network: the response to a GET of a URL, or [None] when the
    connection fails. *)
Variable http_get : string -> option response.

(** [BeautifulSoup(text, 'html.parser')]. *)
Variable html_parser : string -> Soup.node.

(** The names bound in the module namespace by the interpreter or by the
    script entry point to an object other than None, with the
    hashability of the object. *)
Variable ambient_globals : string -> option bool.

Definition fetch (url : string) (raw : bool) : M (fetched raw) :=
  fun h =>
    match http_get url with
    | None => mkOutcome (Raise ConnectionError) h "" [url]
    | Some response =>
        match raise_for_status response with
        | Raise e => mkOutcome (Raise e) h "" [url]
        | Ok _ =>
            mkOutcome (Ok (if raw as b return fetched b
                           then text response
                           else html_parser (text response))) h "" [url]
        end
    end.

Definition check_galaxus (url : string) : M prices_t :=
  soup <- fetch url false ;; lift (galaxus_prices soup).

Definition check_baechli (url : string) : M prices_t :=
  soup <- fetch url false ;; lift (baechli_prices soup).

Definition check_intersport (url : string) : M prices_t :=
  soup <- fetch url false ;; lift (intersport_prices soup).

Definition check_primal (url : string) : M prices_t :=
  soup <- fetch url false ;; lift (primal_prices soup).

Definition check_transa (url : string) : M prices_t :=
  text <- fetch url true ;; lift (transa_prices text).

Definition extractor_name (e : extractor) : string :=
  match e with
  | Galaxus => "check_galaxus"
  | Baechli => "check_baechli"
  | Intersport => "check_intersport"
  | Primal => "check_primal"
  | Transa => "check_transa"
  end.

Definition run_extractor (e : extractor) : string -> M prices_t :=
  match e with
  | Galaxus => check_galaxus
  | Baechli => check_baechli
  | Intersport => check_intersport
  | Primal => check_primal
  | Transa => check_transa
  end.

(** The names the source binds at module level, in the order of the
    file: imports, USER_AGENT and the functions. *)
Definition source_globals : dict global_obj :=
  [ ("re", GNotCallable "re"); ("sys", GNotCallable "sys");
    ("Optional", GNotCallable "Optional"); ("Tuple", GNotCallable "Tuple");
    ("BeautifulSoup", GBeautifulSoup); ("docopt", GDocopt);
    ("requests", GNotCallable "requests"); ("yaml", GNotCallable "yaml");
    ("USER_AGENT", GNotCallable "USER_AGENT");
    ("fetch", GFetch);
    ("check_galaxus", GCheck Galaxus); ("check_baechli", GCheck Baechli);
    ("check_intersport", GCheck Intersport); ("check_primal", GCheck Primal);
    ("check_transa", GCheck Transa);
    ("_load_check_fn", GLoadCheckFn); ("main", GMain) ].

(** [globals().get(key)]: the object bound to a name; a key that is not
    a string finds nothing, and an unhashable key raises. *)
Definition globals_get (key : pyval) : result (option global_obj) :=
  match key with
  | VStr s =>
      match dict_get source_globals s with
      | Some g => Ok (Some g)
      | None =>
          match ambient_globals s with
          | Some h => Ok (Some (GAmbient h))
          | None => Ok None
          end
      end
  | VObj (GAmbient false) => Raise TypeError
  | VObj _ => Ok None
  end.

(** [f(url)] followed by the subscript [prices[0]] of the report, for the
    object [f] stored under 'check_func'.  Only an extractor returns a
    pair; [fetch] and [BeautifulSoup] return a document, whose subscript
    0 is a KeyError; [_load_check_fn] and [main] subscript the URL with a
    string; the other objects are not callable. *)
Definition call (f : pyval) (url : string) : M prices_t :=
  match f with
  | VStr _ => raise TypeError
  | VObj (GCheck e) => run_extractor e url
  | VObj GFetch => fetch url false ;;; raise (KeyError "0")
  | VObj GBeautifulSoup => raise (KeyError "0")
  | VObj GDocopt => raise DocoptError
  | VObj GLoadCheckFn => raise TypeError
  | VObj GMain => raise TypeError
  | VObj (GNotCallable _) => raise TypeError
  | VObj (GAmbient _) => raise TypeError
  end.

Definition _load_check_fn (shop : loc) : M loc :=
  d <- deref shop ;;
  func <- lift (globals_get (check_func d)) ;;
  match func with
  | None => raise (CheckFuncNotFound (check_func d))
  | Some g => set_check_func shop (VObj g) ;;; ret shop
  end.

(** The dictionary comprehension that builds the registry. *)
Fixpoint load_shops (items : dict loc) (acc : dict loc) : M (dict loc) :=
  match items with
  | [] => ret acc
  | (k, v) :: r =>
      s <- _load_check_fn v ;;
      load_shops r (dict_set k s acc)
  end.

(** The body of the inner loop of [main] from the formatting on: the
    line of one result. *)
Definition report (display_name : string) (prices : prices_t) : M unit :=
  print ("  " ++ display_name ++ ": " ++ PyFloat.format_2f (fst prices) ++ " CHF") ;;;
  match snd prices with
  | None => print newline
  | Some regular =>
      if PyFloat.gt regular (fst prices)
      then print (" (statt " ++ PyFloat.format_2f regular ++ " CHF)" ++ newline)
      else raise AssertionError
  end.

Definition check_shop (registry : dict loc) (item : string * string) : M unit :=
  let (shop_id, url) := item in
  match dict_get registry shop_id with
  | None => raise (KeyError shop_id)
  | Some l =>
      shop <- deref l ;;
      prices <- call (check_func shop) url ;;
      shop' <- deref l ;;
      report (name shop') prices
  end.

Definition check_product (registry : dict loc) (p : product) : M unit :=
  print ("Checking " ++ product_name p ++ ":" ++ newline) ;;;
  for_each (product_shops p) (check_shop registry) ;;;
  print newline.

Definition main (cfg : config) : M unit :=
  registry <- load_shops (shops cfg) [] ;;
  for_each (products cfg) (check_product registry).

End Program.

(** ** Reference definitions for the statements *)

(** The pricing invariant of a result: a regular price, when present,
    is greater than the current price. *)
Definition invariant_holds (prices : prices_t) : bool :=
  match snd prices with
  | None => true
  | Some regular => PyFloat.gt regular (fst prices)
  end.

(** The report line the specification describes for one shop result:
    the display name, the current price with two decimals and, when a
    regular price is present, the original price with two decimals. *)
Definition result_line (display_name : string) (prices : prices_t) : string :=
  "  " ++ display_name ++ ": " ++ PyFloat.format_2f (fst prices) ++ " CHF"
  ++ match snd prices with
     | None => ""
     | Some regular => " (statt " ++ PyFloat.format_2f regular ++ " CHF)"
     end
  ++ newline.

(** The names of the five extractors. *)
Definition registered_extractors : list string :=
  map extractor_name [Galaxus; Baechli; Intersport; Primal; Transa].

(** Whether a status code is a success code, 200 to 299. *)
Definition is_2xx (code : Z) : bool := (200 <=? code) && (code <? 300).

(** Whether a string contains no non-breaking space. *)
Fixpoint no_nbsp (s : string) : bool :=
  match s with
  | EmptyString => true
  | String c r => negb (Ascii.eqb c PyStr.nbsp) && no_nbsp r
  end.

(** The price text of the shop pages: CHF, a non-breaking space and the
    amount. *)
Definition chf (amount : string) : string :=
  "CHF" ++ String PyStr.nbsp amount.

(** The currency prefix of a price text: the part before the first
    non-breaking space. *)
Definition currency_prefix (t : string) : string :=
  hd "" (PyStr.split PyStr.nbsp t).

(** The amount of the last match for a key, if any. *)
Fixpoint last_amount (key : string) (matches : list (string * string))
  : option string :=
  match matches with
  | [] => None
  | (k, a) :: r =>
      match last_amount key r with
      | Some a' => Some a'
      | None => if String.eqb k key then Some a else None
      end
  end.

(** Whether every code point of a string satisfies a test. *)
Fixpoint string_forall (p : ascii -> bool) (s : string) : bool :=
  match s with
  | EmptyString => true
  | String c r => p c && string_forall p r
  end.

(** The code points of the pattern of [check_primal]: digits and dots. *)
Definition number_char (c : ascii) : bool :=
  PyStr.isdigit c || Ascii.eqb c ".".

(** Any code point but the quote that ends an amount in the pattern of
    [check_transa]. *)
Definition not_quote (c : ascii) : bool := negb (Ascii.eqb c "'").

(** Whether a string is empty or starts with a code point failing a
    test. *)
Definition stops (p : ascii -> bool) (s : string) : bool :=
  match s with
  | EmptyString => true
  | String c _ => negb (p c)
  end.

(** ** A mocked network for the examples *)

Module Mock.

Import Soup.

Definition meta (property content : string) : node :=
  Tag "meta" [("content", AttrStr content); ("property", AttrStr property)] [].

(** A page with the meta elements of the galaxus.ch example. *)
Definition page_both : node :=
  Tag "[document]" []
    [Tag "html" []
       [Tag "head" []
          [meta "product:price:amount" "49";
           meta "og:price:standard_amount" "72.4"]]].

Definition page_current_only : node :=
  Tag "[document]" []
    [Tag "html" [] [Tag "head" [] [meta "product:price:amount" "49"]]].

(** A page whose regular price is below the current price. *)
Definition page_increase : node :=
  Tag "[document]" []
    [Tag "html" []
       [Tag "head" []
          [meta "product:price:amount" "49";
           meta "og:price:standard_amount" "39.9"]]].

Definition amount_span (t : string) : node :=
  Tag "span" [("class", AttrList ["woocommerce-Price-amount"; "amount"])]
    [Tag "span" [("class", AttrList ["woocommerce-Price-currencySymbol"])]
       [NavigableString "CHF"];
     NavigableString (String PyStr.nbsp t)].

Definition summary_page (price_contents : list node) : node :=
  Tag "[document]" []
    [Tag "div" [("class", AttrList ["summary"; "entry-summary"])]
       [Tag "h1" [("class", AttrList ["product_title"; "entry-title"])]
          [NavigableString "Lightning Ascent"];
        Tag "p" [("class", AttrList ["price"])] price_contents]].

(** The two pages of the docstring of [check_intersport]. *)
Definition page_rebate : node :=
  summary_page [Tag "del" [] [amount_span "379.00"];
                Tag "ins" [] [amount_span "299.90"]].

Definition page_no_rebate : node := summary_page [amount_span "29.00"].

(** A page whose price carries another currency. *)
Definition page_eur : node :=
  summary_page
    [Tag "span" [("class", AttrList ["amount"])]
       [NavigableString ("EUR" ++ String PyStr.nbsp "29.00")]].

Definition lines (l : list string) : string := String.concat newline l.

(** The two texts of the docstring of [check_transa]. *)
Definition text_promo : string :=
  lines ["price: {"; "  base: 'CHF 899.90',"; "  promo: 'CHF 629.90',";
         "  savings: 'CHF 270.00',"; "  basicPrice: ''"; "},"].

Definition text_non_promo : string :=
  lines ["price: {"; "  base: '',"; "  promo: 'CHF 379.90',";
         "  savings: 'CHF 0.00',"; "  basicPrice: ''"; "},"].

Definition text_no_promo : string :=
  lines ["price: {"; "  base: 'CHF 899.90',"; "},"].

(** The mocked responses: the body of a page is its URL. *)
Definition http_get (url : string) : option response :=
  if String.eqb url "gone" then Some (mkResponse 404 "gone")
  else if String.eqb url "not-modified" then Some (mkResponse 304 "cached")
  else if String.eqb url "down" then None
  else Some (mkResponse 200 url).

Definition html_parser (text : string) : node :=
  if String.eqb text "both" then page_both
  else if String.eqb text "increase" then page_increase
  else if String.eqb text "rebate" then page_rebate
  else if String.eqb text "no-rebate" then page_no_rebate
  else if String.eqb text "eur" then page_eur
  else page_current_only.

(** A script run binds no further name a configuration could use. *)
Definition ambient_globals (_ : string) : option bool := None.

(** The store right after loading a configuration with one shop. *)
Definition loaded (check_func : string) : store :=
  fun _ => mkShop "Galaxus" (VStr check_func).

(** The store once the registry is built. *)
Definition resolved : store :=
  fun _ => mkShop "Galaxus" (VObj (GCheck Galaxus)).

(** The number that [float] makes of a decimal literal. *)
Definition amount (s : string) : float :=
  match PyFloat.of_string s with
  | Some x => x
  | None => nan
  end.

Definition widget_config (url : string) : config :=
  mkConfig [("s1", 0%nat)] [mkProduct "Widget" [("s1", url)]].

(** The registry [main] builds for [widget_config]. *)
Definition widget_registry : dict loc := [("s1", 0%nat)].

Definition run (cfg : config) : M unit :=
  main http_get html_parser ambient_globals cfg.

End Mock.

(** ** Further pages and texts for the examples *)

Module Pages.

Import Soup.

(** A server that answers every request with an empty page. *)
Definition always_ok (_ : string) : option response :=
  Some (mkResponse 200 "").

Definition page_empty : node := Tag "[document]" [] [].

(** The page of the docstring of [check_primal]. *)
Definition page_primal : node :=
  Tag "[document]" []
    [Tag "meta" [("itemprop", AttrStr "price"); ("content", AttrStr "284.90")] [];
     Tag "span" [("class", AttrList ["price--line-through"])]
       [NavigableString ("CHF" ++ String PyStr.nbsp "469.00 *")]].

(** A page whose standard amount is not a number. *)
Definition page_bad_standard : node :=
  Tag "[document]" []
    [Mock.meta "product:price:amount" "49";
     Mock.meta "og:price:standard_amount" "n/a"].

(** A price with a non-breaking space as thousands separator. *)
Definition price_thousands : node :=
  Tag "p" [("class", AttrList ["price"])]
    [Tag "span" [("class", AttrList ["amount"])]
       [NavigableString
          (chf "1" ++ String PyStr.nbsp "299.00")]].

(** A text whose base amount is not a number. *)
Definition text_bad_base : string :=
  Mock.lines ["price: {"; "  base: 'CHF n/a',"; "  promo: 'CHF 629.90',"; "},"].


(** Three products of one shop; the page of the second is gone. *)
Definition three_products : config :=
  mkConfig [("s1", 0%nat)]
    [mkProduct "Widget" [("s1", "both")];
     mkProduct "Gadget" [("s1", "gone")];
     mkProduct "Gizmo" [("s1", "both")]].

Definition two_products : config :=
  mkConfig [("s1", 0%nat)]
    [mkProduct "Widget" [("s1", "both")];
     mkProduct "Gizmo" [("s1", "current-only")]].

End Pages.

(** ** Properties *)

Section Properties.

Variable http_get : string -> option response.
Variable html_parser : string -> Soup.node.
Variable ambient_globals : string -> option bool.

Local Abbreviation fetch' := (fetch http_get html_parser).
Local Abbreviation call' := (call http_get html_parser).
Local Abbreviation check_shop' := (check_shop http_get html_parser).
Local Abbreviation check_product' := (check_product http_get html_parser).
Local Abbreviation load_shops' := (load_shops ambient_globals).
Local Abbreviation main' := (main http_get html_parser ambient_globals).
Local Abbreviation globals_get' := (globals_get ambient_globals).
Local Abbreviation _load_check_fn' := (_load_check_fn ambient_globals).

(** *** The monad *)

Lemma append_empty_r (s : string) : s ++ "" = s.
Proof. induction s as [|c s IH]; simpl; [reflexivity | now rewrite IH]. Qed.

Lemma append_assoc (a b c : string) : (a ++ b) ++ c = a ++ b ++ c.
Proof. induction a as [|x a IH]; simpl; [reflexivity | now rewrite IH]. Qed.

Lemma bind_raise {A B} (c : M A) (k : A -> M B) h e :
  value (c h) = Raise e ->
  bind c k h = mkOutcome (Raise e) (heap (c h)) (stdout (c h)) (requests (c h)).
Proof. intros H. unfold bind. now rewrite H. Qed.

(** A fetch prints nothing, leaves the store alone and makes one
    request. *)
Lemma fetch_frame url raw h :
  heap (fetch' url raw h) = h /\ stdout (fetch' url raw h) = ""
  /\ requests (fetch' url raw h) = [url].
Proof.
  unfold fetch. destruct (http_get url) as [r|]; [|now cbn].
  destruct (raise_for_status r); now cbn.
Qed.

Lemma fetch_then_frame {A} url raw (f : fetched raw -> result A) h :
  let o := (x <- fetch' url raw ;; lift (f x)) h in
  heap o = h /\ stdout o = "" /\ requests o = [url].
Proof.
  cbn. unfold bind, fetch.
  destruct (http_get url) as [r|]; [|now cbn].
  destruct (raise_for_status r); now cbn.
Qed.

(** Calling the object stored under 'check_func' prints nothing and
    leaves the store alone. *)
Lemma call_frame f url h :
  heap (call' f url h) = h /\ stdout (call' f url h) = "".
Proof.
  destruct f as [s|g]; [now cbn|].
  destruct g as [e| | | | | | |]; try now cbn.
  - destruct e; unfold call, run_extractor, check_galaxus, check_baechli,
      check_intersport, check_primal, check_transa;
      match goal with
      | |- context [bind (fetch _ _ ?u ?r) (fun x => lift (?f x))] =>
          destruct (fetch_then_frame u r f h) as (H1 & H2 & _)
      end; split; assumption.
  - unfold call, bind.
    destruct (fetch_frame url false h) as (H1 & H2 & _).
    destruct (value (fetch' url false h)); unfold raise;
      cbn [heap stdout]; rewrite ?H1, ?H2; split; reflexivity.
Qed.

Lemma for_each_raise {A} (body : A -> M unit) a r h e :
  value (body a h) = Raise e ->
  for_each (a :: r) body h =
    mkOutcome (Raise e) (heap (body a h)) (stdout (body a h))
              (requests (body a h)).
Proof. intros H. cbn. now apply bind_raise. Qed.

(** *** The report *)

Lemma report_ok display_name prices h :
  invariant_holds prices = true ->
  report display_name prices h =
    mkOutcome (Ok tt) h (result_line display_name prices) [].
Proof.
  destruct prices as [current [regular|]]; unfold invariant_holds, report,
    result_line; cbn [fst snd]; intros H.
  - rewrite H. unfold bind, print; cbn [value heap stdout requests app].
    f_equal. now rewrite ?append_assoc.
  - unfold bind, print; cbn [value heap stdout requests app].
    f_equal. now rewrite ?append_assoc.
Qed.

Lemma report_violation display_name current regular h :
  PyFloat.gt regular current = false ->
  report display_name (current, Some regular) h =
    mkOutcome (Raise AssertionError) h
      ("  " ++ display_name ++ ": " ++ PyFloat.format_2f current ++ " CHF") [].
Proof.
  intros H. unfold report; cbn [fst snd]. rewrite H.
  unfold bind, print, raise; cbn [value heap stdout requests app].
  f_equal. now rewrite append_empty_r.
Qed.

Lemma report_heap display_name prices h :
  heap (report display_name prices h) = h.
Proof.
  destruct prices as [c [r|]]; unfold report, bind, print, raise;
    cbn [fst snd value heap]; [destruct (PyFloat.gt r c)|]; reflexivity.
Qed.

Lemma check_shop_unfold registry shop_id url l h prices :
  dict_get registry shop_id = Some l ->
  value (call' (check_func (h l)) url h) = Ok prices ->
  check_shop' registry (shop_id, url) h =
    mkOutcome (value (report (name (h l)) prices h)) h
              (stdout (report (name (h l)) prices h))
              (requests (call' (check_func (h l)) url h)
               ++ requests (report (name (h l)) prices h)).
Proof.
  intros Hl Hc. unfold check_shop. rewrite Hl.
  destruct (call_frame (check_func (h l)) url h) as [Hh Hs].
  unfold bind, deref. cbn [value heap stdout requests].
  rewrite Hc. cbn [value heap stdout requests].
  rewrite Hh, Hs, report_heap. reflexivity.
Qed.

(** C1. In the reporting loop, a result with a regular price is checked
    by a hard assertion: when the regular price is greater than the
    current one the line is printed with its (statt ...) annotation and
    nothing is raised; otherwise AssertionError is raised after the
    unannotated beginning of the line, no annotation is printed, and
    the loop over the remaining shops is abandoned with that error. *)
Theorem reporter_asserts_regular_above_current
  registry shop_id url l h current regular rest :
  dict_get registry shop_id = Some l ->
  value (call' (check_func (h l)) url h) = Ok (current, Some regular) ->
  let o := check_shop' registry (shop_id, url) h in
  let loop := for_each ((shop_id, url) :: rest) (check_shop' registry) h in
  if PyFloat.gt regular current
  then value o = Ok tt
       /\ stdout o =
            "  " ++ name (h l) ++ ": " ++ PyFloat.format_2f current ++ " CHF"
            ++ " (statt " ++ PyFloat.format_2f regular ++ " CHF)" ++ newline
  else value o = Raise AssertionError
       /\ stdout o =
            "  " ++ name (h l) ++ ": " ++ PyFloat.format_2f current ++ " CHF"
       /\ value loop = Raise AssertionError
       /\ stdout loop = stdout o.
Proof.
  intros Hl Hc o loop. subst o loop.
  destruct (PyFloat.gt regular current) eqn:Hgt.
  - rewrite (check_shop_unfold _ _ _ _ _ _ Hl Hc).
    rewrite report_ok by exact Hgt. cbn [value stdout].
    split; [reflexivity|]. unfold result_line; cbn [fst snd].
    now rewrite ?append_assoc.
  - assert (Hv : value (check_shop' registry (shop_id, url) h)
                 = Raise AssertionError).
    { rewrite (check_shop_unfold _ _ _ _ _ _ Hl Hc).
      now rewrite report_violation by exact Hgt. }
    split; [exact Hv|]. split.
    + rewrite (check_shop_unfold _ _ _ _ _ _ Hl Hc).
      now rewrite report_violation by exact Hgt.
    + rewrite (for_each_raise _ _ rest _ _ Hv). now cbn.
Qed.



(** *** The extractors *)

Lemma fetch_ok url raw resp h :
  http_get url = Some resp ->
  raise_for_status resp = Ok tt ->
  fetch' url raw h =
    mkOutcome (Ok (if raw as b return fetched b
                   then text resp else html_parser (text resp))) h "" [url].
Proof. intros H1 H2. unfold fetch. now rewrite H1, H2. Qed.

Lemma fetch_then_value {A} url raw (f : fetched raw -> result A) resp h :
  http_get url = Some resp ->
  raise_for_status resp = Ok tt ->
  value ((x <- fetch' url raw ;; lift (f x)) h) =
    f (if raw as b return fetched b
       then text resp else html_parser (text resp)).
Proof.
  intros H1 H2. unfold bind. rewrite (fetch_ok _ _ _ _ H1 H2). now cbn.
Qed.

(** C3. When the fetched document has a meta element with property
    product:price:amount whose content c parses as a number, then
    check_galaxus returns (c, r) if there is a meta element with property
    og:price:standard_amount, of content r, and (c, absent) if there is
    none. *)
Theorem check_galaxus_meta_prices url resp h m c current :
  http_get url = Some resp ->
  raise_for_status resp = Ok tt ->
  let soup := html_parser (text resp) in
  Soup.find (Some "meta") (Some ("property", "product:price:amount")) true soup
    = Some m ->
  Soup.get m "content" = Some (Soup.AttrStr c) ->
  float_str c = Ok current ->
  (forall sm r regular,
      Soup.find (Some "meta") (Some ("property", "og:price:standard_amount"))
        true soup = Some sm ->
      Soup.get sm "content" = Some (Soup.AttrStr r) ->
      float_str r = Ok regular ->
      value (check_galaxus http_get html_parser url h)
        = Ok (current, Some regular))
  /\ (Soup.find (Some "meta") (Some ("property", "og:price:standard_amount"))
        true soup = None ->
      value (check_galaxus http_get html_parser url h) = Ok (current, None)).
Proof.
  intros Hg Hs soup Hm Hc Hf. unfold check_galaxus.
  rewrite (fetch_then_value _ _ _ _ _ Hg Hs). fold soup.
  unfold galaxus_prices. rewrite Hm. cbn [not_none rbind].
  rewrite Hc. cbn [float_attr]. rewrite Hf. cbn [rbind].
  split.
  - intros sm r regular Hsm Hr Hfr. rewrite Hsm, Hr. cbn [float_attr].
    now rewrite Hfr.
  - intros Hn. now rewrite Hn.
Qed.

Lemma split_no_sep s :
  no_nbsp s = true -> PyStr.split PyStr.nbsp s = [s].
Proof.
  induction s as [|c s IH]; [reflexivity|]. cbn [no_nbsp PyStr.split].
  intros H. apply andb_true_iff in H as [Hc Hs].
  apply negb_true_iff in Hc. rewrite Hc, (IH Hs). reflexivity.
Qed.

Lemma split_chf amount :
  no_nbsp amount = true -> PyStr.split PyStr.nbsp (chf amount) = ["CHF"; amount].
Proof.
  intros H. pose proof (split_no_sep _ H) as E.
  unfold chf. cbn in E |- *. now rewrite E.
Qed.

Lemma get_price_chf element a amount :
  Soup.find None (Some ("class", "amount")) true element = Some a ->
  Soup.text a = chf amount ->
  no_nbsp amount = true ->
  _get_price element = float_str amount.
Proof.
  intros Hf Ht Hn. unfold _get_price. rewrite Hf. cbn [not_none rbind].
  rewrite Ht, (split_chf _ Hn). reflexivity.
Qed.

(** C4. For check_intersport on a fetched document with a summary and a
    price container: when the container has a del child and an ins
    child, each with an amount text CHF, non-breaking space, amount, the
    result is (amount of ins, amount of del); when it lacks one of them
    and has a single price element with such a text, the result is
    (that amount, absent). *)
Theorem check_intersport_markup_prices url resp h summary prices :
  http_get url = Some resp ->
  raise_for_status resp = Ok tt ->
  let soup := html_parser (text resp) in
  Soup.find (Some "div") (Some ("class", "entry-summary")) true soup
    = Some summary ->
  Soup.find None (Some ("class", "price")) true summary = Some prices ->
  (forall del ins a_del a_ins amount_del amount_ins regular current,
      Soup.find (Some "del") None false prices = Some del ->
      Soup.find (Some "ins") None false prices = Some ins ->
      Soup.find None (Some ("class", "amount")) true del = Some a_del ->
      Soup.text a_del = chf amount_del ->
      no_nbsp amount_del = true ->
      float_str amount_del = Ok regular ->
      Soup.find None (Some ("class", "amount")) true ins = Some a_ins ->
      Soup.text a_ins = chf amount_ins ->
      no_nbsp amount_ins = true ->
      float_str amount_ins = Ok current ->
      value (check_intersport http_get html_parser url h)
        = Ok (current, Some regular))
  /\ (forall a amount current,
        Soup.find (Some "del") None false prices = None
        \/ Soup.find (Some "ins") None false prices = None ->
        Soup.find None (Some ("class", "amount")) true prices = Some a ->
        Soup.text a = chf amount ->
        no_nbsp amount = true ->
        float_str amount = Ok current ->
        value (check_intersport http_get html_parser url h)
          = Ok (current, None)).
Proof.
  intros Hg Hs soup Hsum Hpr. unfold check_intersport.
  rewrite (fetch_then_value _ _ _ _ _ Hg Hs). fold soup.
  unfold intersport_prices. rewrite Hsum. cbn [not_none rbind].
  rewrite Hpr. cbn [not_none rbind].
  split.
  - intros del ins a_del a_ins amount_del amount_ins regular current
      Hdel Hins Had Htd Hnd Hfd Hai Hti Hni Hfi.
    rewrite Hdel, Hins.
    rewrite (get_price_chf _ _ _ Hai Hti Hni), Hfi. cbn [rbind].
    rewrite (get_price_chf _ _ _ Had Htd Hnd), Hfd. reflexivity.
  - intros a amount current Hnone Ha Ht Hn Hf.
    assert (Hp : _get_price prices = Ok current)
      by now rewrite (get_price_chf _ _ _ Ha Ht Hn).
    destruct Hnone as [Hd|Hi].
    + rewrite Hd, Hp. reflexivity.
    + rewrite Hi.
      destruct (Soup.find (Some "del") None false prices); now rewrite Hp.
Qed.

Lemma split_cons sep s : exists p ps, PyStr.split sep s = p :: ps.
Proof.
  destruct s as [|c s]; cbn [PyStr.split]; [now eexists; eexists|].
  destruct (Ascii.eqb c sep); [now eexists; eexists|].
  destruct (PyStr.split sep s); now eexists; eexists.
Qed.

Lemma get_price_assertion element a :
  Soup.find None (Some ("class", "amount")) true element = Some a ->
  currency_prefix (Soup.text a) <> "CHF" ->
  _get_price element = Raise AssertionError.
Proof.
  intros Hf Hp. unfold _get_price. rewrite Hf. cbn [not_none rbind].
  unfold currency_prefix in Hp.
  destruct (split_cons PyStr.nbsp (Soup.text a)) as (p0 & ps & E).
  rewrite E in Hp |- *. cbn [hd nth_error] in Hp |- *.
  destruct (String.eqb_spec p0 "CHF"); [contradiction | reflexivity].
Qed.

(** C6. In check_intersport, parsing the price of an element whose
    currency prefix (the text before the non-breaking space) is not
    exactly CHF raises AssertionError, and the extractor returns no
    result whenever an element it parses (the ins and del children when
    both exist, the price container otherwise) has such a prefix. *)
Theorem check_intersport_validates_currency element a :
  Soup.find None (Some ("class", "amount")) true element = Some a ->
  currency_prefix (Soup.text a) <> "CHF" ->
  _get_price element = Raise AssertionError
  /\ forall soup summary prices,
      Soup.find (Some "div") (Some ("class", "entry-summary")) true soup
        = Some summary ->
      Soup.find None (Some ("class", "price")) true summary = Some prices ->
      match Soup.find (Some "del") None false prices,
            Soup.find (Some "ins") None false prices with
      | Some del, Some ins => element = del \/ element = ins
      | _, _ => element = prices
      end ->
      is_ok (intersport_prices soup) = false.
Proof.
  intros Hf Hp.
  pose proof (get_price_assertion _ _ Hf Hp) as Hg.
  split; [exact Hg|].
  intros soup summary prices Hsum Hpr Hparsed.
  unfold intersport_prices. rewrite Hsum. cbn [not_none rbind].
  rewrite Hpr. cbn [not_none rbind].
  destruct (Soup.find (Some "del") None false prices) as [del|];
    destruct (Soup.find (Some "ins") None false prices) as [ins|];
    try (subst element; now rewrite Hg).
  destruct Hparsed as [-> | ->].
  - destruct (_get_price ins); cbn [rbind is_ok]; [|reflexivity].
    now rewrite Hg.
  - now rewrite Hg.
Qed.

Lemma dict_get_set {A} key (v : A) d key' :
  dict_get (dict_set key v d) key' =
    if String.eqb key key' then Some v else dict_get d key'.
Proof.
  induction d as [|[k w] d IH]; cbn [dict_set dict_get]; [reflexivity|].
  destruct (String.eqb_spec k key) as [->|Hk]; cbn [dict_get].
  - now destruct (String.eqb key key').
  - rewrite IH. destruct (String.eqb_spec k key') as [->|Hk'];
      [|reflexivity].
    destruct (String.eqb_spec key key'); [congruence | reflexivity].
Qed.

(** The scan either stops at the first amount that is not a number, or
    ends with the last amount of every key. *)
Lemma collect_prices_spec matches :
  forall acc,
    match collect_prices matches acc with
    | Ok d =>
        forall key,
          dict_get d key =
            match last_amount key matches with
            | Some a =>
                match float_str a with Ok x => Some x | Raise _ => None end
            | None => dict_get acc key
            end
    | Raise e =>
        e = ValueError
        /\ exists k a, In (k, a) matches /\ float_str a = Raise ValueError
    end.
Proof.
  induction matches as [|[k a] r IH]; intros acc; cbn [collect_prices].
  - now intros key.
  - destruct (float_str a) as [x|e] eqn:Hx; cbn [rbind].
    + specialize (IH (dict_set k x acc)).
      destruct (collect_prices r (dict_set k x acc)) as [d|e].
      * intros key. rewrite IH. cbn [last_amount].
        destruct (last_amount key r); [reflexivity|].
        rewrite dict_get_set.
        destruct (String.eqb k key); [now rewrite Hx | reflexivity].
      * destruct IH as (-> & k' & a' & Hin & Hf). split; [reflexivity|].
        exists k', a'. split; [now right | exact Hf].
    + assert (e = ValueError) as ->.
      { unfold float_str in Hx. destruct (PyFloat.of_string a); congruence. }
      split; [reflexivity|]. exists k, a. split; [now left | exact Hx].
Qed.

(** C5. For check_transa on a fetched text whose matching lines all
    carry a number: the result is the amount of the (last) promo line
    with the amount of the (last) base line, absent when no line
    matches as a base line; the docstring text with promo 629.90 and
    base 899.90 yields these two amounts; a base line with an empty
    string does not match; and a text without a matching promo line
    gives no result but an error. *)
Theorem check_transa_scans_price_lines :
  (forall text promo current,
      let matches := price_matches (PyStr.splitlines text) in
      (forall k a, In (k, a) matches -> is_ok (float_str a) = true) ->
      last_amount "promo" matches = Some promo ->
      float_str promo = Ok current ->
      transa_prices text =
        Ok (current,
            match last_amount "base" matches with
            | Some base =>
                match float_str base with Ok x => Some x | Raise _ => None end
            | None => None
            end))
  /\ (exists current regular,
        float_str "629.90" = Ok current /\ float_str "899.90" = Ok regular
        /\ transa_prices Mock.text_promo = Ok (current, Some regular))
  /\ match_price_line "  base: ''," = None
  /\ (exists current,
        float_str "379.90" = Ok current
        /\ transa_prices Mock.text_non_promo = Ok (current, None))
  /\ (forall text,
        last_amount "promo" (price_matches (PyStr.splitlines text)) = None ->
        transa_prices text = Raise (KeyError "promo")
        \/ transa_prices text = Raise ValueError).
Proof.
  split; [|split; [|split; [|split]]].
  - intros text promo current matches Hall Hp Hf. unfold transa_prices.
    fold matches.
    pose proof (collect_prices_spec matches []) as Hspec.
    destruct (collect_prices matches []) as [d|e].
    + cbn [rbind]. rewrite (Hspec "promo"), Hp, Hf, (Hspec "base").
      reflexivity.
    + destruct Hspec as (_ & k & a & Hin & Hbad).
      specialize (Hall k a Hin). rewrite Hbad in Hall. discriminate.
  - destruct (float_str "629.90") as [c|] eqn:Hc; [|vm_compute in Hc; discriminate].
    destruct (float_str "899.90") as [r|] eqn:Hr; [|vm_compute in Hr; discriminate].
    exists c, r. split; [reflexivity|]. split; [reflexivity|].
    vm_compute in Hc, Hr. injection Hc as <-. injection Hr as <-.
    now vm_compute.
  - now vm_compute.
  - destruct (float_str "379.90") as [c|] eqn:Hc; [|vm_compute in Hc; discriminate].
    exists c. split; [reflexivity|].
    vm_compute in Hc. injection Hc as <-. now vm_compute.
  - intros text Hp. unfold transa_prices.
    pose proof (collect_prices_spec (price_matches (PyStr.splitlines text)) [])
      as Hspec.
    destruct (collect_prices (price_matches (PyStr.splitlines text)) [])
      as [d|e].
    + cbn [rbind]. rewrite (Hspec "promo"), Hp. cbn [dict_get]. now left.
    + destruct Hspec as (-> & _). now right.
Qed.

(** *** The fetcher *)

(** C7, as the code has it.  A response with a client or server error
    status, 400 to 599, is fatal for the call: fetch raises HTTPError
    after its single request and returns neither the text nor a
    document; every other status, the 3xx codes included, is returned
    like a success. *)
Theorem fetch_raises_on_error_status url raw resp h :
  http_get url = Some resp ->
  let o := fetch' url raw h in
  requests o = [url]
  /\ if (400 <=? status_code resp) && (status_code resp <? 600)
     then value o = Raise (HTTPError (status_code resp))
     else value o = Ok (if raw as b return fetched b
                        then text resp else html_parser (text resp)).
Proof.
  intros Hg o. subst o. unfold fetch. rewrite Hg. unfold raise_for_status.
  destruct ((400 <=? status_code resp) && (status_code resp <? 600));
    now cbn.
Qed.

(** *** The registry *)

Lemma load_check_fn_unfold l h :
  _load_check_fn' l h =
    match globals_get' (check_func (h l)) with
    | Ok (Some g) => mkOutcome (Ok l) (update h l (VObj g)) "" []
    | Ok None => mkOutcome (Raise (CheckFuncNotFound (check_func (h l)))) h "" []
    | Raise e => mkOutcome (Raise e) h "" []
    end.
Proof.
  unfold _load_check_fn, bind, deref, lift, set_check_func, raise, ret.
  cbn [value heap stdout requests].
  destruct (globals_get' (check_func (h l))) as [[g|]|e]; reflexivity.
Qed.



Lemma globals_get_name s :
  globals_get' (VStr s) =
    match dict_get source_globals s, ambient_globals s with
    | Some g, _ => Ok (Some g)
    | None, Some hashable => Ok (Some (GAmbient hashable))
    | None, None => Ok None
    end.
Proof.
  unfold globals_get. destruct (dict_get source_globals s); [reflexivity|].
  now destruct (ambient_globals s).
Qed.

(** Registry construction prints nothing and requests nothing. *)
Lemma load_shops_silent items :
  forall acc h,
    stdout (load_shops' items acc h) = ""
    /\ requests (load_shops' items acc h) = [].
Proof.
  induction items as [|[k l] r IH]; intros acc h; cbn [load_shops];
    [now cbn|].
  unfold bind. rewrite load_check_fn_unfold.
  destruct (globals_get' (check_func (h l))) as [[g|]|e];
    cbn [value heap stdout requests]; [|now split..].
  destruct (IH (dict_set k l acc) (update h l (VObj g))) as [-> ->].
  now split.
Qed.




(** A shop whose name is bound to nothing makes the construction
    fail. *)
Lemma load_shops_unbound items :
  forall acc h k l s,
    In (k, l) items ->
    check_func (h l) = VStr s ->
    globals_get' (VStr s) = Ok None ->
    exists e, value (load_shops' items acc h) = Raise e.
Proof.
  induction items as [|[k0 l0] r IH]; intros acc h k l s Hin Hc Hn;
    [contradiction|].
  cbn [load_shops]. unfold bind. rewrite load_check_fn_unfold.
  destruct (globals_get' (check_func (h l0))) as [[g|]|e] eqn:Hg;
    cbn [value heap stdout requests]; [|now eexists..].
  destruct Hin as [Heq|Hin].
  - injection Heq as -> ->. rewrite Hc, Hn in Hg. discriminate.
  - apply (IH _ _ k l s Hin); [|exact Hn].
    unfold update. destruct (Nat.eqb_spec l l0) as [->|]; [|exact Hc].
    rewrite Hc, Hn in Hg. discriminate.
Qed.

(** *** The run *)

Lemma for_each_heap {A} (body : A -> M unit) l :
  (forall a h, heap (body a h) = h) ->
  forall h, heap (for_each l body h) = h.
Proof.
  intros Hb. induction l as [|a r IH]; intros h; cbn [for_each];
    [reflexivity|].
  unfold bind. destruct (value (body a h)); cbn [heap]; rewrite Hb;
    [apply IH | reflexivity].
Qed.

Lemma check_shop_heap registry item h :
  heap (check_shop' registry item h) = h.
Proof.
  destruct item as [shop_id url]. unfold check_shop.
  destruct (dict_get registry shop_id) as [l|]; [|reflexivity].
  destruct (call_frame (check_func (h l)) url h) as [Hh _].
  unfold bind, deref. cbn [value heap stdout requests].
  destruct (value (call' (check_func (h l)) url h)); cbn [heap];
    [|exact Hh].
  rewrite Hh. apply report_heap.
Qed.

Lemma check_product_heap registry p h :
  heap (check_product' registry p h) = h.
Proof.
  unfold check_product, bind, print. cbn [value heap stdout requests].
  pose proof (for_each_heap (check_shop' registry) (product_shops p)
                (check_shop_heap registry) h) as Hf.
  destruct (value (for_each (product_shops p) (check_shop' registry) h));
    cbn [heap]; rewrite Hf; reflexivity.
Qed.


(** A run whose registry construction raises stops there. *)
Lemma main_raise cfg h e :
  value (load_shops' (shops cfg) [] h) = Raise e ->
  value (main' cfg h) = Raise e
  /\ stdout (main' cfg h) = "" /\ requests (main' cfg h) = [].
Proof.
  intros Hv. unfold main, bind. rewrite Hv. cbn [value stdout requests].
  destruct (load_shops_silent (shops cfg) [] h) as [-> ->]. auto.
Qed.

(** C2, as the code has it.  A shop's check_func name resolves exactly
    when the module's global namespace binds it to an object: each of
    the five extractor names resolves to its extractor, and so does any
    other global of the module, such as fetch or main.  For a name bound
    to nothing, _load_check_fn raises the ValueError that names it, and
    a run whose configuration has such a shop raises during registry
    construction, before anything is printed and before any request. *)
Theorem registry_resolves_module_globals :
  (forall e,
      globals_get ambient_globals (VStr (extractor_name e)) = Ok (Some (GCheck e)))
  /\ (forall l h s,
        check_func (h l) = VStr s ->
        match dict_get source_globals s, ambient_globals s with
        | None, None =>
            _load_check_fn ambient_globals l h =
              mkOutcome (Raise (CheckFuncNotFound (VStr s))) h "" []
        | _, _ => value (_load_check_fn ambient_globals l h) = Ok l
        end)
  /\ (forall cfg h k l s,
        In (k, l) (shops cfg) ->
        check_func (h l) = VStr s ->
        dict_get source_globals s = None ->
        ambient_globals s = None ->
        let o := main http_get html_parser ambient_globals cfg h in
        (exists e, value o = Raise e)
        /\ stdout o = "" /\ requests o = []).
Proof.
  split; [|split].
  - intros e. now destruct e.
  - intros l h s Hc. rewrite load_check_fn_unfold, Hc, globals_get_name.
    destruct (dict_get source_globals s); [reflexivity|].
    destruct (ambient_globals s); reflexivity.
  - intros cfg h k l s Hin Hc Hs Ha o. subst o.
    assert (Hn : globals_get' (VStr s) = Ok None)
      by now rewrite globals_get_name, Hs, Ha.
    destruct (load_shops_unbound _ [] h k l s Hin Hc Hn) as [e He].
    destruct (main_raise _ _ _ He) as (Hv & Hso & Hr).
    split; [now exists e | now split].
Qed.



End Properties.

(** ** The statements at concrete inputs *)

Import Mock.

(** C1 on the page whose regular price, 39.90, is below the current
    price, 49.00. *)
Lemma reporter_asserts_regular_above_current_witness :
  (dict_get widget_registry "s1" = Some 0%nat
   /\ value (call http_get html_parser (check_func (resolved 0%nat))
               "increase" resolved)
      = Ok (amount "49", Some (amount "39.9")))
  /\ value (check_shop http_get html_parser widget_registry
              ("s1", "increase") resolved)
     = Raise AssertionError
  /\ stdout (check_shop http_get html_parser widget_registry
               ("s1", "increase") resolved)
     = "  Galaxus: 49.00 CHF".
Proof.
  assert (H1 : dict_get widget_registry "s1" = Some 0%nat) by reflexivity.
  assert (H2 : value (call http_get html_parser (check_func (resolved 0%nat))
                        "increase" resolved)
               = Ok (amount "49", Some (amount "39.9")))
    by (vm_compute; reflexivity).
  split; [split; assumption|].
  pose proof (reporter_asserts_regular_above_current http_get html_parser
                widget_registry "s1" "increase" 0%nat resolved
                (amount "49") (amount "39.9") [] H1 H2) as H.
  cbn zeta in H.
  replace (PyFloat.gt (amount "39.9") (amount "49")) with false in H
    by (vm_compute; reflexivity).
  destruct H as (Hv & Hs & _). split; [exact Hv|].
  rewrite Hs. vm_compute. reflexivity.
Defined.

(** C3 on the two pages of the galaxus.ch example. *)
Lemma check_galaxus_meta_prices_witness :
  value (check_galaxus http_get html_parser "both" resolved)
    = Ok (amount "49", Some (amount "72.4"))
  /\ value (check_galaxus http_get html_parser "current-only" resolved)
     = Ok (amount "49", None).
Proof.
  split.
  - refine (proj1 (check_galaxus_meta_prices http_get html_parser "both"
                     (mkResponse 200 "both") resolved
                     (meta "product:price:amount" "49") "49" (amount "49")
                     _ _ _ _ _)
                  (meta "og:price:standard_amount" "72.4") "72.4"
                  (amount "72.4") _ _ _);
      vm_compute; reflexivity.
  - refine (proj2 (check_galaxus_meta_prices http_get html_parser
                     "current-only" (mkResponse 200 "current-only") resolved
                     (meta "product:price:amount" "49") "49" (amount "49")
                     _ _ _ _ _) _);
      vm_compute; reflexivity.
Defined.

(** C4 on the two pages of the docstring of check_intersport. *)
Lemma check_intersport_markup_prices_witness :
  value (check_intersport http_get html_parser "rebate" resolved)
    = Ok (amount "299.90", Some (amount "379.00"))
  /\ value (check_intersport http_get html_parser "no-rebate" resolved)
     = Ok (amount "29.00", None).
Proof.
  split.
  - refine (proj1 (check_intersport_markup_prices http_get html_parser
                     "rebate" (mkResponse 200 "rebate") resolved
                     (Soup.Tag "div"
                        [("class", Soup.AttrList ["summary"; "entry-summary"])]
                        [Soup.Tag "h1"
                           [("class",
                             Soup.AttrList ["product_title"; "entry-title"])]
                           [Soup.NavigableString "Lightning Ascent"];
                         Soup.Tag "p" [("class", Soup.AttrList ["price"])]
                           [Soup.Tag "del" [] [amount_span "379.00"];
                            Soup.Tag "ins" [] [amount_span "299.90"]]])
                     (Soup.Tag "p" [("class", Soup.AttrList ["price"])]
                        [Soup.Tag "del" [] [amount_span "379.00"];
                         Soup.Tag "ins" [] [amount_span "299.90"]])
                     _ _ _ _)
                  (Soup.Tag "del" [] [amount_span "379.00"])
                  (Soup.Tag "ins" [] [amount_span "299.90"])
                  (amount_span "379.00") (amount_span "299.90")
                  "379.00" "299.90" (amount "379.00") (amount "299.90")
                  _ _ _ _ _ _ _ _ _ _);
      vm_compute; reflexivity.
  - refine (proj2 (check_intersport_markup_prices http_get html_parser
                     "no-rebate" (mkResponse 200 "no-rebate") resolved
                     (Soup.Tag "div"
                        [("class", Soup.AttrList ["summary"; "entry-summary"])]
                        [Soup.Tag "h1"
                           [("class",
                             Soup.AttrList ["product_title"; "entry-title"])]
                           [Soup.NavigableString "Lightning Ascent"];
                         Soup.Tag "p" [("class", Soup.AttrList ["price"])]
                           [amount_span "29.00"]])
                     (Soup.Tag "p" [("class", Soup.AttrList ["price"])]
                        [amount_span "29.00"])
                     _ _ _ _)
                  (amount_span "29.00") "29.00" (amount "29.00")
                  (or_introl _) _ _ _ _);
      vm_compute; reflexivity.
Defined.

(** C5 on the text of a product without promotion. *)
Lemma check_transa_scans_price_lines_witness :
  ((forall k a,
       In (k, a) (price_matches (PyStr.splitlines text_non_promo)) ->
       is_ok (float_str a) = true)
   /\ last_amount "promo" (price_matches (PyStr.splitlines text_non_promo))
      = Some "379.90"
   /\ float_str "379.90" = Ok (amount "379.90"))
  /\ transa_prices text_non_promo = Ok (amount "379.90", None).
Proof.
  assert (H1 : forall k a,
             In (k, a) (price_matches (PyStr.splitlines text_non_promo)) ->
             is_ok (float_str a) = true).
  { intros k a H. vm_compute in H. destruct H as [H|[]].
    injection H as <- <-. vm_compute. reflexivity. }
  assert (H2 : last_amount "promo"
                 (price_matches (PyStr.splitlines text_non_promo))
               = Some "379.90") by (vm_compute; reflexivity).
  assert (H3 : float_str "379.90" = Ok (amount "379.90"))
    by (vm_compute; reflexivity).
  split; [repeat split; assumption|].
  pose proof (proj1 check_transa_scans_price_lines text_non_promo "379.90"
                (amount "379.90") H1 H2 H3) as H.
  rewrite H. vm_compute. reflexivity.
Defined.

(** C6 on the page whose price is in another currency. *)
Lemma check_intersport_validates_currency_witness :
  (Soup.find None (Some ("class", "amount")) true
     (Soup.Tag "p" [("class", Soup.AttrList ["price"])]
        [Soup.Tag "span" [("class", Soup.AttrList ["amount"])]
           [Soup.NavigableString ("EUR" ++ String PyStr.nbsp "29.00")]])
   = Some (Soup.Tag "span" [("class", Soup.AttrList ["amount"])]
             [Soup.NavigableString ("EUR" ++ String PyStr.nbsp "29.00")])
   /\ currency_prefix ("EUR" ++ String PyStr.nbsp "29.00") <> "CHF")
  /\ _get_price
       (Soup.Tag "p" [("class", Soup.AttrList ["price"])]
          [Soup.Tag "span" [("class", Soup.AttrList ["amount"])]
             [Soup.NavigableString ("EUR" ++ String PyStr.nbsp "29.00")]])
     = Raise AssertionError
  /\ is_ok (intersport_prices page_eur) = false.
Proof.
  set (a := Soup.Tag "span" [("class", Soup.AttrList ["amount"])]
              [Soup.NavigableString ("EUR" ++ String PyStr.nbsp "29.00")]).
  set (prices := Soup.Tag "p" [("class", Soup.AttrList ["price"])] [a]).
  assert (H1 : Soup.find None (Some ("class", "amount")) true prices = Some a)
    by (vm_compute; reflexivity).
  assert (H2 : currency_prefix (Soup.text a) <> "CHF")
    by (vm_compute; discriminate).
  split; [split; [exact H1 | exact H2]|].
  destruct (check_intersport_validates_currency prices a H1 H2) as [Hg Hs].
  split; [exact Hg|].
  refine (Hs page_eur
            (Soup.Tag "div"
               [("class", Soup.AttrList ["summary"; "entry-summary"])]
               [Soup.Tag "h1"
                  [("class", Soup.AttrList ["product_title"; "entry-title"])]
                  [Soup.NavigableString "Lightning Ascent"];
                prices])
            prices _ _ _); vm_compute; reflexivity.
Defined.

(** C7, as the code has it, on the page that is gone. *)
Lemma fetch_raises_on_error_status_witness :
  http_get "gone" = Some (mkResponse 404 "gone")
  /\ requests (fetch http_get html_parser "gone" false resolved) = ["gone"]
  /\ value (fetch http_get html_parser "gone" false resolved)
     = Raise (HTTPError 404).
Proof.
  assert (H1 : http_get "gone" = Some (mkResponse 404 "gone")) by reflexivity.
  split; [exact H1|].
  exact (fetch_raises_on_error_status http_get html_parser "gone" false
           (mkResponse 404 "gone") resolved H1).
Defined.

(** C7 as stated fails: a response with status 304 is not a 2xx
    response, and fetch returns its text. *)
Lemma fetch_returns_not_modified_response :
  http_get "not-modified" = Some (mkResponse 304 "cached")
  /\ is_2xx 304 = false
  /\ fetch http_get html_parser "not-modified" true resolved
     = mkOutcome (Ok "cached") resolved "" ["not-modified"].
Proof. repeat split. Qed.


(** C2 as stated fails: fetch is not one of the five extractors, and a
    shop that names it resolves. *)
Lemma unregistered_name_resolves :
  ~ In "fetch" registered_extractors
  /\ _load_check_fn ambient_globals 0%nat (loaded "fetch")
     = mkOutcome (Ok 0%nat) (update (loaded "fetch") 0%nat (VObj GFetch)) "" []
  /\ value (load_shops ambient_globals (shops (widget_config "both")) []
              (loaded "fetch"))
     = Ok widget_registry.
Proof.
  split; [|split; reflexivity].
  intros H. cbn in H.
  repeat (destruct H as [H|H]; [discriminate|]). exact H.
Qed.

(** C2, as the code has it, on a shop that names no global. *)
Lemma registry_resolves_module_globals_witness :
  (In ("s1", 0%nat) (shops (widget_config "both"))
   /\ check_func (loaded "check_amazon" 0%nat) = VStr "check_amazon"
   /\ dict_get source_globals "check_amazon" = None
   /\ ambient_globals "check_amazon" = None)
  /\ value (run (widget_config "both") (loaded "check_amazon"))
     = Raise (CheckFuncNotFound (VStr "check_amazon"))
  /\ stdout (run (widget_config "both") (loaded "check_amazon")) = ""
  /\ requests (run (widget_config "both") (loaded "check_amazon")) = [].
Proof.
  assert (H1 : In ("s1", 0%nat) (shops (widget_config "both")))
    by (now left).
  split; [repeat split; assumption || reflexivity|].
  destruct (proj2 (proj2 (registry_resolves_module_globals
                            http_get html_parser ambient_globals))
              (widget_config "both") (loaded "check_amazon") "s1" 0%nat
              "check_amazon" H1 eq_refl eq_refl eq_refl) as (_ & Hs & Hr).
  split; [reflexivity|]. split; [exact Hs | exact Hr].
Defined.





(** ** Further properties of the extractors *)

Section ExtractorProperties.

Variable http_get : string -> option response.
Variable html_parser : string -> Soup.node.

(** Every extractor makes exactly one request, for the URL it is given,
    prints nothing and writes nothing to the store, whether it returns
    or raises; a failed connection and an error status reach the caller
    as the exception of the fetch. *)
Theorem extractors_fetch_once_and_propagate e url h :
  let o := run_extractor http_get html_parser e url h in
  requests o = [url] /\ stdout o = "" /\ heap o = h
  /\ (http_get url = None -> value o = Raise ConnectionError)
  /\ (forall resp,
        http_get url = Some resp ->
        400 <= status_code resp < 600 ->
        value o = Raise (HTTPError (status_code resp))).
Proof.
  cbn zeta.
  assert (Hf : forall raw (f : fetched raw -> result prices_t),
             let o := (x <- fetch http_get html_parser url raw ;; lift (f x)) h in
             requests o = [url] /\ stdout o = "" /\ heap o = h
             /\ (http_get url = None -> value o = Raise ConnectionError)
             /\ (forall resp,
                    http_get url = Some resp ->
                    400 <= status_code resp < 600 ->
                    value o = Raise (HTTPError (status_code resp)))).
  { intros raw f. cbn zeta. unfold bind, fetch.
    destruct (http_get url) as [r|] eqn:Hg.
    - unfold raise_for_status.
      destruct ((400 <=? status_code r) && (status_code r <? 600)) eqn:Hs;
        cbn [value heap stdout requests lift app String.append];
        (repeat split; try reflexivity; try discriminate).
      + intros resp [= <-] _. reflexivity.
      + intros resp [= <-] [H1 H2]. exfalso.
        apply andb_false_iff in Hs as [Hs|Hs];
          [apply Z.leb_gt in Hs | apply Z.ltb_ge in Hs]; lia.
    - cbn [value heap stdout requests]. repeat split; discriminate. }
  destruct e; unfold run_extractor, check_galaxus, check_baechli,
    check_intersport, check_primal, check_transa; apply Hf.
Qed.

(** check_baechli never reports a regular price, and on a document
    whose first product:price:amount meta has a number as content it
    returns that number. *)
Theorem check_baechli_current_only url resp h m c current :
  http_get url = Some resp ->
  raise_for_status resp = Ok tt ->
  Soup.find (Some "meta") (Some ("property", "product:price:amount")) true
    (html_parser (text resp)) = Some m ->
  Soup.get m "content" = Some (Soup.AttrStr c) ->
  float_str c = Ok current ->
  value (check_baechli http_get html_parser url h) = Ok (current, None)
  /\ forall url' h' prices,
      value (check_baechli http_get html_parser url' h') = Ok prices ->
      snd prices = None.
Proof.
  intros Hg Hs Hm Hc Hf. split.
  - unfold check_baechli. rewrite (fetch_then_value _ _ _ _ _ _ _ Hg Hs).
    unfold baechli_prices. rewrite Hm. cbn [not_none rbind].
    rewrite Hc. cbn [float_attr]. now rewrite Hf.
  - clear. intros url' h' prices. unfold check_baechli, bind, fetch.
    destruct (http_get url') as [r|];
      [|cbn [value]; discriminate].
    destruct (raise_for_status r);
      cbn [value heap stdout requests lift]; [|discriminate].
    unfold baechli_prices.
    destruct (Soup.find _ _ _ _) as [m'|];
      cbn [not_none rbind]; [|discriminate].
    destruct (float_attr (Soup.get m' "content"));
      cbn [rbind]; [|discriminate].
    now intros [= <-].
Qed.

(** check_galaxus and check_baechli read the current price from the same
    element: whenever check_galaxus returns a result for a URL,
    check_baechli returns its current price for that URL. *)
Theorem galaxus_and_baechli_agree_on_current url h current regular :
  value (check_galaxus http_get html_parser url h) = Ok (current, regular) ->
  value (check_baechli http_get html_parser url h) = Ok (current, None).
Proof.
  unfold check_galaxus, check_baechli, bind, fetch.
  destruct (http_get url) as [r|]; [|cbn [value]; discriminate].
  destruct (raise_for_status r);
    cbn [value heap stdout requests lift]; [|discriminate].
  unfold galaxus_prices, baechli_prices.
  destruct (Soup.find (Some "meta")
              (Some ("property", "product:price:amount")) true _) as [m|];
    cbn [not_none rbind]; [|discriminate].
  destruct (float_attr (Soup.get m "content")) as [c|];
    cbn [rbind]; [|discriminate].
  destruct (Soup.find (Some "meta")
              (Some ("property", "og:price:standard_amount")) true _) as [sm|].
  - destruct (float_attr (Soup.get sm "content"));
      cbn [rbind]; [|discriminate].
    now intros [= <- _].
  - now intros [= <- _].
Qed.

(** A document without the element that carries the current price makes
    the extractor raise AttributeError: no price is guessed. *)
Theorem missing_anchor_element_raises url resp h :
  http_get url = Some resp ->
  raise_for_status resp = Ok tt ->
  let soup := html_parser (text resp) in
  (Soup.find (Some "meta") (Some ("property", "product:price:amount")) true soup
     = None ->
   value (check_galaxus http_get html_parser url h) = Raise AttributeError
   /\ value (check_baechli http_get html_parser url h) = Raise AttributeError)
  /\ (Soup.find (Some "meta") (Some ("itemprop", "price")) true soup = None ->
      value (check_primal http_get html_parser url h) = Raise AttributeError)
  /\ (Soup.find (Some "div") (Some ("class", "entry-summary")) true soup = None ->
      value (check_intersport http_get html_parser url h)
        = Raise AttributeError)
  /\ (forall summary,
        Soup.find (Some "div") (Some ("class", "entry-summary")) true soup
          = Some summary ->
        Soup.find None (Some ("class", "price")) true summary = None ->
        value (check_intersport http_get html_parser url h)
          = Raise AttributeError).
Proof.
  intros Hg Hs soup.
  unfold check_galaxus, check_baechli, check_primal, check_intersport.
  rewrite !(fetch_then_value _ _ _ _ _ _ _ Hg Hs). fold soup.
  unfold galaxus_prices, baechli_prices, primal_prices, intersport_prices.
  repeat split.
  - now rewrite H.
  - now rewrite H.
  - intros H. now rewrite H.
  - intros H. now rewrite H.
  - intros summary H1 H2. rewrite H1. cbn [not_none rbind]. now rewrite H2.
Qed.

(** check_galaxus gives no partial result: with a current price that
    parses, a standard-amount meta without a content attribute raises
    TypeError and one whose content is not a number raises ValueError. *)
Theorem check_galaxus_no_partial_result url resp h m c current sm :
  http_get url = Some resp ->
  raise_for_status resp = Ok tt ->
  let soup := html_parser (text resp) in
  Soup.find (Some "meta") (Some ("property", "product:price:amount")) true soup
    = Some m ->
  Soup.get m "content" = Some (Soup.AttrStr c) ->
  float_str c = Ok current ->
  Soup.find (Some "meta") (Some ("property", "og:price:standard_amount"))
    true soup = Some sm ->
  (Soup.get sm "content" = None ->
   value (check_galaxus http_get html_parser url h) = Raise TypeError)
  /\ (forall r,
        Soup.get sm "content" = Some (Soup.AttrStr r) ->
        PyFloat.of_string r = None ->
        value (check_galaxus http_get html_parser url h) = Raise ValueError).
Proof.
  intros Hg Hs soup Hm Hc Hf Hsm. unfold check_galaxus.
  rewrite (fetch_then_value _ _ _ _ _ _ _ Hg Hs). fold soup.
  unfold galaxus_prices. rewrite Hm. cbn [not_none rbind].
  rewrite Hc. cbn [float_attr]. rewrite Hf. cbn [rbind]. rewrite Hsm.
  split.
  - intros H. now rewrite H.
  - intros r H1 H2. rewrite H1. cbn [float_attr]. unfold float_str.
    now rewrite H2.
Qed.

End ExtractorProperties.

(** ** Further properties of the text scanners *)

Section ScannerProperties.

Variable http_get : string -> option response.
Variable html_parser : string -> Soup.node.

Lemma span_app p run post :
  string_forall p run = true ->
  stops p post = true ->
  PyStr.span p (run ++ post) = (run, post).
Proof.
  intros Hr Hp. induction run as [|c run IH]; cbn [String.append].
  - destruct post as [|d post]; [reflexivity|]. cbn [PyStr.span].
    cbn [stops] in Hp. apply negb_true_iff in Hp. now rewrite Hp.
  - cbn [string_forall] in Hr. apply andb_true_iff in Hr as [Hc Hr].
    cbn [PyStr.span]. rewrite Hc, (IH Hr). reflexivity.
Qed.

Lemma span_split p s :
  s = fst (PyStr.span p s) ++ snd (PyStr.span p s)
  /\ string_forall p (fst (PyStr.span p s)) = true
  /\ stops p (snd (PyStr.span p s)) = true.
Proof.
  induction s as [|c s (IH1 & IH2 & IH3)]; [now cbn|].
  cbn [PyStr.span]. destruct (p c) eqn:Hc.
  - destruct (PyStr.span p s) as [a b]. cbn [fst snd] in *.
    cbn [String.append string_forall]. rewrite Hc, IH2.
    repeat split; [now f_equal | exact IH3].
  - cbn [fst snd String.append string_forall stops]. now rewrite Hc.
Qed.

Lemma strip_prefix_app p s : PyStr.strip_prefix p (p ++ s) = Some s.
Proof.
  induction p as [|c p IH]; cbn [String.append PyStr.strip_prefix].
  - now destruct s.
  - now rewrite Ascii.eqb_refl.
Qed.

Lemma strip_prefix_some p :
  forall s r, PyStr.strip_prefix p s = Some r -> s = p ++ r.
Proof.
  induction p as [|c p IH]; intros s r; cbn [PyStr.strip_prefix].
  - destruct s; now intros [= <-].
  - destruct s as [|d s]; [discriminate|].
    destruct (Ascii.eqb_spec c d) as [->|]; [|discriminate].
    intros H. cbn [String.append]. f_equal. now apply IH.
Qed.

Lemma lstrip_app ws s :
  string_forall PyStr.isspace ws = true ->
  stops PyStr.isspace s = true ->
  PyStr.lstrip (ws ++ s) = s.
Proof.
  intros Hw Hs. induction ws as [|c ws IH]; cbn [String.append].
  - destruct s as [|d s]; [reflexivity|]. cbn [PyStr.lstrip].
    cbn [stops] in Hs. apply negb_true_iff in Hs. now rewrite Hs.
  - cbn [string_forall] in Hw. apply andb_true_iff in Hw as [Hc Hw].
    cbn [PyStr.lstrip]. rewrite Hc. now apply IH.
Qed.

Lemma lstrip_split s :
  exists ws,
    s = ws ++ PyStr.lstrip s /\ string_forall PyStr.isspace ws = true.
Proof.
  induction s as [|c s (ws & IH1 & IH2)]; [now exists ""|].
  cbn [PyStr.lstrip]. destruct (PyStr.isspace c) eqn:Hc.
  - exists (String c ws). cbn [String.append string_forall].
    rewrite Hc, IH2. split; [now f_equal | reflexivity].
  - now exists "".
Qed.

Lemma price_line_groups_app key amount tail :
  string_forall not_quote amount = true ->
  tail = "" \/ tail = newline ->
  price_line_groups key (key ++ ": 'CHF " ++ amount ++ "'," ++ tail)
    = Some (key, amount).
Proof.
  intros Ha Ht. unfold price_line_groups.
  replace (key ++ ": 'CHF " ++ amount ++ "'," ++ tail)
    with ((key ++ ": 'CHF ") ++ amount ++ "'," ++ tail)
    by now rewrite append_assoc.
  rewrite strip_prefix_app.
  change (fun c : ascii => negb (Ascii.eqb c "'")) with not_quote.
  rewrite (span_app not_quote amount ("'," ++ tail) Ha eq_refl).
  rewrite (strip_prefix_app "'," tail).
  destruct Ht as [-> | ->]; reflexivity.
Qed.

Lemma price_line_groups_some key s k amount :
  price_line_groups key s = Some (k, amount) ->
  k = key
  /\ string_forall not_quote amount = true
  /\ exists tail,
      s = key ++ ": 'CHF " ++ amount ++ "'," ++ tail
      /\ (tail = "" \/ tail = newline).
Proof.
  unfold price_line_groups.
  destruct (PyStr.strip_prefix (key ++ ": 'CHF ") s) as [r|] eqn:Hp;
    [|discriminate].
  apply strip_prefix_some in Hp.
  change (fun c : ascii => negb (Ascii.eqb c "'")) with not_quote.
  destruct (span_split not_quote r) as (Hr & Hall & _).
  destruct (PyStr.span not_quote r) as [a r']. cbn [fst snd] in Hr, Hall.
  destruct (PyStr.strip_prefix "'," r') as [e|] eqn:He; [|discriminate].
  apply strip_prefix_some in He.
  destruct (String.eqb_spec e "") as [->|Hne]; cbn [orb].
  - intros [= <- <-]. repeat split; [exact Hall|].
    exists "". split; [|now left].
    rewrite Hp, Hr, He. now rewrite !append_assoc.
  - destruct (String.eqb_spec e (String PyStr.lf "")) as [->|]; [|discriminate].
    intros [= <- <-]. repeat split; [exact Hall|].
    exists newline. split; [|now right].
    rewrite Hp, Hr, He. now rewrite !append_assoc.
Qed.

(** The pattern of check_transa accepts exactly the lines it describes:
    a line matches with the groups key and amount if and only if it is
    made of blanks, the key base or promo, the colon, the quoted CHF
    amount without a quote inside, a comma, and then nothing or one
    line feed. *)
Theorem match_price_line_accepts_exactly line key amount :
  match_price_line line = Some (key, amount)
  <-> (key = "base" \/ key = "promo")
      /\ string_forall not_quote amount = true
      /\ exists ws tail,
          string_forall PyStr.isspace ws = true
          /\ (tail = "" \/ tail = newline)
          /\ line = ws ++ key ++ ": 'CHF " ++ amount ++ "'," ++ tail.
Proof.
  split.
  - unfold match_price_line.
    destruct (lstrip_split line) as (ws & Hl & Hw).
    destruct (price_line_groups "base" (PyStr.lstrip line)) as [[k a]|] eqn:Hb.
    + intros [= -> ->].
      destruct (price_line_groups_some _ _ _ _ Hb) as (-> & Ha & tail & Hs & Ht).
      split; [now left|]. split; [exact Ha|].
      exists ws, tail. repeat split; [exact Hw | exact Ht|].
      rewrite Hl at 1. now rewrite Hs.
    + intros Hp.
      destruct (price_line_groups_some _ _ _ _ Hp) as (-> & Ha & tail & Hs & Ht).
      split; [now right|]. split; [exact Ha|].
      exists ws, tail. repeat split; [exact Hw | exact Ht|].
      rewrite Hl at 1. now rewrite Hs.
  - intros (Hk & Ha & ws & tail & Hw & Ht & ->). unfold match_price_line.
    rewrite lstrip_app; [|exact Hw | destruct Hk as [-> | ->]; reflexivity].
    destruct Hk as [-> | ->].
    + now rewrite (price_line_groups_app "base" amount tail Ha Ht).
    + rewrite (price_line_groups_app "promo" amount tail Ha Ht).
      assert (Hb : price_line_groups "base"
                     ("promo" ++ ": 'CHF " ++ amount ++ "'," ++ tail) = None)
        by reflexivity.
      now rewrite Hb.
Qed.

Lemma collect_prices_bad matches k a :
  In (k, a) matches ->
  PyFloat.of_string a = None ->
  forall acc, collect_prices matches acc = Raise ValueError.
Proof.
  intros Hin Hbad.
  induction matches as [|[k0 a0] r IH]; [contradiction|].
  intros acc. cbn [collect_prices]. unfold float_str at 1.
  destruct (PyFloat.of_string a0) as [x|] eqn:Hx; cbn [rbind];
    [|reflexivity].
  destruct Hin as [[= -> ->]|Hin]; [congruence|]. now apply IH.
Qed.

(** check_transa gives no partial result: one matching line whose amount
    is not a number makes it raise ValueError, whatever the other lines
    hold, a valid promo line included. *)
Theorem check_transa_rejects_bad_amount url resp h k a :
  http_get url = Some resp ->
  raise_for_status resp = Ok tt ->
  In (k, a) (price_matches (PyStr.splitlines (text resp))) ->
  PyFloat.of_string a = None ->
  value (check_transa http_get html_parser url h) = Raise ValueError.
Proof.
  intros Hg Hs Hin Hbad. unfold check_transa.
  rewrite (fetch_then_value _ _ _ _ _ _ _ Hg Hs).
  unfold transa_prices.
  now rewrite (collect_prices_bad _ _ _ Hin Hbad).
Qed.

End ScannerProperties.

(** ** Further properties of the price texts *)

Section PriceTextProperties.

Variable http_get : string -> option response.
Variable html_parser : string -> Soup.node.

Lemma first_number_run_app pre run post :
  string_forall (fun c => negb (number_char c)) pre = true ->
  string_forall number_char run = true ->
  run <> "" ->
  stops number_char post = true ->
  first_number_run (pre ++ run ++ post) = Some run.
Proof.
  intros Hpre Hrun Hne Hpost. induction pre as [|c pre IH].
  - destruct run as [|c run]; [contradiction|].
    cbn [String.append first_number_run].
    pose proof Hrun as Hc. cbn [string_forall] in Hc.
    apply andb_true_iff in Hc as [Hc _]. unfold number_char in Hc.
    rewrite Hc.
    change (fun d : ascii => PyStr.isdigit d || Ascii.eqb d ".")
      with number_char.
    change (String c (run ++ post)) with (String c run ++ post).
    now rewrite (span_app number_char _ _ Hrun Hpost).
  - cbn [string_forall] in Hpre. apply andb_true_iff in Hpre as [Hc Hpre].
    cbn [String.append first_number_run].
    apply negb_true_iff in Hc. unfold number_char in Hc. rewrite Hc.
    now apply IH.
Qed.

Lemma first_number_run_none s :
  string_forall (fun c => negb (number_char c)) s = true ->
  first_number_run s = None.
Proof.
  induction s as [|c s IH]; [reflexivity|]. cbn [string_forall].
  intros H. apply andb_true_iff in H as [Hc Hs].
  apply negb_true_iff in Hc. unfold number_char in Hc.
  cbn [first_number_run]. rewrite Hc. now apply IH.
Qed.

(** check_primal on a document whose price meta has a number as
    content: without a line-through span the regular price is absent;
    with one, the regular price is the first run of digits and dots of
    its text, whatever surrounds the run; and a span without any digit
    or dot raises IndexError. *)
Theorem check_primal_line_through_price url resp h m c current :
  http_get url = Some resp ->
  raise_for_status resp = Ok tt ->
  let soup := html_parser (text resp) in
  Soup.find (Some "meta") (Some ("itemprop", "price")) true soup = Some m ->
  Soup.get m "content" = Some (Soup.AttrStr c) ->
  float_str c = Ok current ->
  (Soup.find (Some "span") (Some ("class", "price--line-through")) true soup
     = None ->
   value (check_primal http_get html_parser url h) = Ok (current, None))
  /\ (forall element pre run post,
        Soup.find (Some "span") (Some ("class", "price--line-through")) true
          soup = Some element ->
        Soup.text element = pre ++ run ++ post ->
        string_forall (fun c => negb (number_char c)) pre = true ->
        string_forall number_char run = true ->
        run <> "" ->
        stops number_char post = true ->
        value (check_primal http_get html_parser url h)
          = (regular <~ float_str run ;; Ok (current, Some regular)))
  /\ (forall element,
        Soup.find (Some "span") (Some ("class", "price--line-through")) true
          soup = Some element ->
        string_forall (fun c => negb (number_char c)) (Soup.text element)
          = true ->
        value (check_primal http_get html_parser url h) = Raise IndexError).
Proof.
  intros Hg Hs soup Hm Hc Hf. unfold check_primal.
  rewrite (fetch_then_value _ _ _ _ _ _ _ Hg Hs). fold soup.
  unfold primal_prices. rewrite Hm. cbn [not_none rbind].
  rewrite Hc. cbn [float_attr]. rewrite Hf. cbn [rbind].
  split; [|split].
  - intros H. now rewrite H.
  - intros element pre run post He Ht Hpre Hrun Hne Hpost.
    rewrite He, Ht, (first_number_run_app _ _ _ Hpre Hrun Hne Hpost).
    reflexivity.
  - intros element He Ht. now rewrite He, (first_number_run_none _ Ht).
Qed.

Lemma split_at_sep amount rest :
  no_nbsp amount = true ->
  PyStr.split PyStr.nbsp (amount ++ String PyStr.nbsp rest)
    = amount :: PyStr.split PyStr.nbsp rest.
Proof.
  induction amount as [|c amount IH]; cbn [no_nbsp String.append PyStr.split].
  - intros _. now rewrite Ascii.eqb_refl.
  - intros H. apply andb_true_iff in H as [Hc Ha].
    apply negb_true_iff in Hc. rewrite Hc, (IH Ha). reflexivity.
Qed.

(** The inner price parser of check_intersport reads the part between
    the first and the second non-breaking space only: what follows a
    second separator is ignored; and a text without a separator raises
    IndexError when it is CHF and AssertionError otherwise. *)
Theorem get_price_reads_second_part element a :
  Soup.find None (Some ("class", "amount")) true element = Some a ->
  (forall amount rest,
      Soup.text a = chf amount ++ String PyStr.nbsp rest ->
      no_nbsp amount = true ->
      _get_price element = float_str amount)
  /\ (no_nbsp (Soup.text a) = true ->
      _get_price element =
        if String.eqb (Soup.text a) "CHF"
        then Raise IndexError else Raise AssertionError).
Proof.
  intros Hf. unfold _get_price. rewrite Hf. cbn [not_none rbind]. split.
  - intros amount rest Ht Hn. rewrite Ht. unfold chf.
    change (("CHF" ++ String PyStr.nbsp amount) ++ String PyStr.nbsp rest)
      with ("CHF" ++ String PyStr.nbsp (amount ++ String PyStr.nbsp rest)).
    rewrite (split_at_sep "CHF" _ eq_refl), (split_at_sep _ _ Hn).
    reflexivity.
  - intros Hn. rewrite (split_no_sep _ Hn). cbn [nth_error].
    destruct (String.eqb (Soup.text a) "CHF"); reflexivity.
Qed.

End PriceTextProperties.

(** ** Further properties of the registry and of the run *)

Section RunProperties.

Variable http_get : string -> option response.
Variable html_parser : string -> Soup.node.
Variable ambient_globals : string -> option bool.

Lemma load_shops_registry items :
  forall acc h registry,
    value (load_shops ambient_globals items acc h) = Ok registry ->
    registry = fold_left (fun d (kv : string * loc) => dict_set (fst kv) (snd kv) d)
                 items acc.
Proof.
  induction items as [|[k l] r IH]; intros acc h registry; cbn [load_shops].
  - cbn. now intros [= <-].
  - unfold bind. rewrite load_check_fn_unfold.
    destruct (globals_get ambient_globals (check_func (h l))) as [[g|]|e];
      cbn [value heap stdout requests]; [|discriminate..].
    intros Hv. cbn [fold_left fst snd]. exact (IH _ _ _ Hv).
Qed.

Lemma dict_get_fold_set items k :
  NoDup (map fst items) ->
  forall acc : dict loc,
    dict_get (fold_left (fun d (kv : string * loc) =>
                           dict_set (fst kv) (snd kv) d) items acc) k =
      match dict_get items k with
      | Some l => Some l
      | None => dict_get acc k
      end.
Proof.
  induction items as [|[k0 l0] r IH]; intros Hnd acc; [reflexivity|].
  cbn [map fst] in Hnd. inversion Hnd as [|? ? Hnotin Hnd']; subst.
  cbn [fold_left fst snd dict_get]. rewrite (IH Hnd'), dict_get_set.
  destruct (String.eqb_spec k0 k) as [->|Hne]; [|reflexivity].
  assert (Hnone : dict_get r k = None).
  { clear -Hnotin. induction r as [|[k1 l1] r IH]; [reflexivity|].
    cbn [dict_get]. destruct (String.eqb_spec k1 k) as [->|].
    - exfalso. apply Hnotin. now left.
    - apply IH. intros H. apply Hnotin. now right. }
  now rewrite Hnone.
Qed.

(** A registry construction that succeeds binds every shop identifier
    of the configuration to its own shop dictionary, and no other
    identifier to anything. *)
Theorem registry_binds_configured_shops items h registry :
  NoDup (map fst items) ->
  value (load_shops ambient_globals items [] h) = Ok registry ->
  forall shop_id, dict_get registry shop_id = dict_get items shop_id.
Proof.
  intros Hnd Hv shop_id.
  rewrite (load_shops_registry _ _ _ _ Hv), (dict_get_fold_set _ _ Hnd).
  now destruct (dict_get items shop_id).
Qed.

Lemma dict_get_fold_set_none items k :
  dict_get items k = None ->
  forall acc : dict loc,
    dict_get (fold_left (fun d (kv : string * loc) =>
                           dict_set (fst kv) (snd kv) d) items acc) k
    = dict_get acc k.
Proof.
  induction items as [|[k0 l0] r IH]; intros Hn acc; [reflexivity|].
  cbn [dict_get] in Hn. cbn [fold_left fst snd].
  destruct (String.eqb_spec k0 k) as [->|Hne]; [discriminate|].
  rewrite (IH Hn), dict_get_set.
  destruct (String.eqb_spec k0 k); [contradiction | reflexivity].
Qed.

(** A product that names a shop identifier the configuration does not
    define makes the check of that shop raise KeyError for the
    identifier, before any request and any output for the shop. *)
Theorem unknown_shop_identifier_raises cfg h registry shop_id url h' :
  value (load_shops ambient_globals (shops cfg) [] h) = Ok registry ->
  dict_get (shops cfg) shop_id = None ->
  check_shop http_get html_parser registry (shop_id, url) h'
    = mkOutcome (Raise (KeyError shop_id)) h' "" [].
Proof.
  intros Hv Hn. unfold check_shop.
  rewrite (load_shops_registry _ _ _ _ Hv), (dict_get_fold_set_none _ _ Hn).
  reflexivity.
Qed.




End RunProperties.

(** ** Further properties of the reporting loops *)

Section LoopProperties.

Variable http_get : string -> option response.
Variable html_parser : string -> Soup.node.
Variable ambient_globals : string -> option bool.

(** A loop whose body leaves the store alone, when every body of a
    prefix returns and the next one raises. *)
Lemma for_each_stops {A} (body : A -> M unit) h :
  (forall a h', heap (body a h') = h') ->
  forall done a rest e,
    value (for_each done body h) = Ok tt ->
    value (body a h) = Raise e ->
    let o := for_each (done ++ a :: rest) body h in
    value o = Raise e
    /\ stdout o = stdout (for_each done body h) ++ stdout (body a h)
    /\ requests o
       = (requests (for_each done body h) ++ requests (body a h))%list.
Proof.
  intros Hb done a rest e. induction done as [|d done IH]; intros Hd Ha;
    cbn zeta.
  - cbn [app]. rewrite (for_each_raise _ _ rest _ _ Ha). now cbn.
  - cbn [app for_each] in Hd |- *. unfold bind in Hd |- *.
    destruct (value (body d h)) as [[]|e'] eqn:Hv;
      cbn [value heap stdout requests] in Hd |- *; [|discriminate].
    rewrite Hb in Hd |- *. destruct (IH Hd Ha) as (IH1 & IH2 & IH3).
    cbn zeta in IH1, IH2, IH3. rewrite IH1, IH2, IH3.
    now rewrite append_assoc, <- app_assoc.
Qed.

(** A loop whose body leaves the store alone and returns on every
    element: its output and its requests are those of the bodies, in
    order. *)
Lemma for_each_all {A} (body : A -> M unit) h :
  (forall a h', heap (body a h') = h') ->
  forall l,
    value (for_each l body h) = Ok tt ->
    Forall (fun a => value (body a h) = Ok tt) l
    /\ stdout (for_each l body h)
       = fold_right String.append "" (map (fun a => stdout (body a h)) l)
    /\ requests (for_each l body h)
       = flat_map (fun a => requests (body a h)) l.
Proof.
  intros Hb l. induction l as [|a l IH]; intros Hv; [now cbn|].
  cbn [for_each] in Hv |- *. unfold bind in Hv |- *.
  destruct (value (body a h)) as [[]|e] eqn:Ha;
    cbn [value heap stdout requests] in Hv |- *; [|discriminate].
  rewrite Hb in Hv |- *. destruct (IH Hv) as (IH1 & IH2 & IH3).
  cbn [map fold_right flat_map]. rewrite IH2, IH3.
  repeat split. now constructor.
Qed.

Lemma call_ok_requests f url h prices :
  value (call http_get html_parser f url h) = Ok prices ->
  requests (call http_get html_parser f url h) = [url].
Proof.
  destruct f as [s|g]; [discriminate|].
  destruct g as [e| | | | | | |]; try discriminate.
  - intros _. destruct e; unfold call, run_extractor, check_galaxus,
      check_baechli, check_intersport, check_primal, check_transa;
      match goal with
      | |- context [bind (fetch _ _ ?u ?r) (fun x => lift (?f x))] =>
          exact (proj2 (proj2 (fetch_then_frame http_get html_parser u r f h)))
      end.
  - unfold call, bind.
    destruct (value (fetch http_get html_parser url false h)); discriminate.
Qed.

Lemma check_shop_ok_requests registry item h :
  value (check_shop http_get html_parser registry item h) = Ok tt ->
  requests (check_shop http_get html_parser registry item h) = [snd item].
Proof.
  destruct item as [shop_id url]. unfold check_shop.
  destruct (dict_get registry shop_id) as [l|]; [|discriminate].
  unfold bind, deref. cbn [value heap stdout requests].
  destruct (value (call http_get html_parser (check_func (h l)) url h))
    as [prices|e] eqn:Hc; cbn [value heap stdout requests]; [|discriminate].
  rewrite (call_ok_requests _ _ _ _ Hc).
  destruct (call_frame http_get html_parser (check_func (h l)) url h)
    as [Hh _].
  rewrite Hh. intros Hv. cbn [snd app].
  destruct prices as [c [r|]]; unfold report, bind, print, raise in Hv |- *;
    cbn [fst snd value heap stdout requests] in Hv |- *;
    [destruct (PyFloat.gt r c); [reflexivity | discriminate] | reflexivity].
Qed.

Lemma check_product_ok_requests registry p h :
  value (check_product http_get html_parser registry p h) = Ok tt ->
  requests (check_product http_get html_parser registry p h)
    = map snd (product_shops p).
Proof.
  unfold check_product, bind, print. cbn [value heap stdout requests].
  destruct (value (for_each (product_shops p)
                     (check_shop http_get html_parser registry) h))
    as [[]|e] eqn:Hv; cbn [value heap stdout requests]; [|discriminate].
  intros _.
  destruct (for_each_all _ h (check_shop_heap http_get html_parser registry)
              _ Hv) as (Hall & _ & Hr).
  rewrite Hr, app_nil_r. cbn [app]. clear Hr Hv.
  induction Hall as [|item l Hi _ IH]; [reflexivity|].
  cbn [flat_map map]. rewrite (check_shop_ok_requests _ _ _ Hi), IH.
  reflexivity.
Qed.

(** A run that returns has fetched every URL of every product exactly
    once, in the order of the configuration, and nothing else. *)
Theorem successful_run_fetches_each_url_once cfg h :
  value (main http_get html_parser ambient_globals cfg h) = Ok tt ->
  requests (main http_get html_parser ambient_globals cfg h)
    = flat_map (fun p => map snd (product_shops p)) (products cfg).
Proof.
  unfold main, bind.
  destruct (load_shops_silent ambient_globals (shops cfg) [] h) as [_ Hr].
  destruct (value (load_shops ambient_globals (shops cfg) [] h))
    as [registry|e]; cbn [value heap stdout requests]; [|discriminate].
  intros Hv. rewrite Hr. cbn [app].
  destruct (for_each_all _ _ (check_product_heap http_get html_parser registry)
              _ Hv) as (Hall & _ & Hq).
  rewrite Hq. clear Hq Hv.
  induction Hall as [|p l Hp _ IH]; [reflexivity|].
  cbn [flat_map]. now rewrite (check_product_ok_requests _ _ _ Hp), IH.
Qed.

(** There is no isolation between items: when the products before one
    are reported and that one raises, the run raises the same
    exception; its output ends with what that product printed before
    the exception, and the products after it are neither fetched nor
    printed. *)
Theorem run_aborts_at_first_failure cfg h registry done p rest e :
  products cfg = (done ++ p :: rest)%list ->
  value (load_shops ambient_globals (shops cfg) [] h) = Ok registry ->
  let h1 := heap (load_shops ambient_globals (shops cfg) [] h) in
  let body := check_product http_get html_parser registry in
  value (for_each done body h1) = Ok tt ->
  value (body p h1) = Raise e ->
  let o := main http_get html_parser ambient_globals cfg h in
  value o = Raise e
  /\ stdout o = stdout (for_each done body h1) ++ stdout (body p h1)
  /\ requests o
     = (requests (for_each done body h1) ++ requests (body p h1))%list.
Proof.
  intros Hp Hv h1 body Hd He. cbn zeta. unfold main, bind.
  destruct (load_shops_silent ambient_globals (shops cfg) [] h) as [Hs Hr].
  rewrite Hv, Hs, Hr, Hp. cbn [value heap stdout requests app String.append].
  exact (for_each_stops body h1
           (check_product_heap http_get html_parser registry)
           done p rest e Hd He).
Qed.

(** The report of a run that returns is the sequence of the blocks of
    the products, in the order of the configuration, each block being
    what the check of the product prints on the store the registry
    construction left. *)
Theorem successful_run_prints_product_blocks cfg h registry :
  value (load_shops ambient_globals (shops cfg) [] h) = Ok registry ->
  value (main http_get html_parser ambient_globals cfg h) = Ok tt ->
  let h1 := heap (load_shops ambient_globals (shops cfg) [] h) in
  Forall (fun p =>
            value (check_product http_get html_parser registry p h1) = Ok tt)
         (products cfg)
  /\ stdout (main http_get html_parser ambient_globals cfg h)
     = fold_right String.append ""
         (map (fun p =>
                 stdout (check_product http_get html_parser registry p h1))
              (products cfg)).
Proof.
  intros Hv. unfold main, bind.
  destruct (load_shops_silent ambient_globals (shops cfg) [] h) as [Hs _].
  rewrite Hv, Hs. cbn [value heap stdout requests String.append].
  intros Hm. cbn zeta.
  destruct (for_each_all _ _ (check_product_heap http_get html_parser registry)
              _ Hm) as (Hall & Ho & _).
  split; [exact Hall | exact Ho].
Qed.

End LoopProperties.

(** ** The further properties at concrete inputs *)

Import Pages.

Lemma check_baechli_current_only_witness :
  value (check_baechli http_get html_parser "both" resolved)
    = Ok (amount "49", None).
Proof.
  refine (proj1 (check_baechli_current_only http_get html_parser "both"
                   (mkResponse 200 "both") resolved
                   (meta "product:price:amount" "49") "49" (amount "49")
                   _ _ _ _ _));
    vm_compute; reflexivity.
Defined.

Lemma galaxus_and_baechli_agree_on_current_witness :
  value (check_galaxus http_get html_parser "both" resolved)
    = Ok (amount "49", Some (amount "72.4"))
  /\ value (check_baechli http_get html_parser "both" resolved)
     = Ok (amount "49", None).
Proof.
  assert (H : value (check_galaxus http_get html_parser "both" resolved)
              = Ok (amount "49", Some (amount "72.4")))
    by (vm_compute; reflexivity).
  split; [exact H|].
  exact (galaxus_and_baechli_agree_on_current http_get html_parser "both"
           resolved (amount "49") (Some (amount "72.4")) H).
Defined.

Lemma missing_anchor_element_raises_witness :
  value (check_galaxus always_ok (fun _ => page_empty) "u" resolved)
    = Raise AttributeError
  /\ value (check_primal always_ok (fun _ => page_empty) "u" resolved)
     = Raise AttributeError
  /\ value (check_intersport always_ok (fun _ => page_empty) "u" resolved)
     = Raise AttributeError.
Proof.
  destruct (missing_anchor_element_raises always_ok (fun _ => page_empty)
              "u" (mkResponse 200 "") resolved eq_refl eq_refl)
    as (H1 & H2 & H3 & _).
  split; [exact (proj1 (H1 eq_refl))|].
  split; [exact (H2 eq_refl) | exact (H3 eq_refl)].
Defined.

Lemma check_galaxus_no_partial_result_witness :
  value (check_galaxus always_ok (fun _ => page_bad_standard) "u" resolved)
    = Raise ValueError.
Proof.
  refine (proj2 (check_galaxus_no_partial_result always_ok
                   (fun _ => page_bad_standard) "u" (mkResponse 200 "")
                   resolved (meta "product:price:amount" "49") "49"
                   (amount "49") (meta "og:price:standard_amount" "n/a")
                   _ _ _ _ _ _) "n/a" _ _);
    vm_compute; reflexivity.
Defined.

Lemma check_transa_rejects_bad_amount_witness :
  In ("base", "n/a") (price_matches (PyStr.splitlines text_bad_base))
  /\ value (check_transa (fun _ => Some (mkResponse 200 text_bad_base))
              html_parser "u" resolved)
     = Raise ValueError.
Proof.
  assert (H : In ("base", "n/a")
                (price_matches (PyStr.splitlines text_bad_base)))
    by (vm_compute; now left).
  split; [exact H|].
  exact (check_transa_rejects_bad_amount
           (fun _ => Some (mkResponse 200 text_bad_base)) html_parser "u"
           (mkResponse 200 text_bad_base) resolved "base" "n/a"
           eq_refl eq_refl H eq_refl).
Defined.

Lemma check_primal_line_through_price_witness :
  value (check_primal always_ok (fun _ => page_primal) "u" resolved)
    = Ok (amount "284.90", Some (amount "469.00")).
Proof.
  refine (proj1 (proj2 (check_primal_line_through_price always_ok
                          (fun _ => page_primal) "u" (mkResponse 200 "")
                          resolved
                          (Soup.Tag "meta"
                             [("itemprop", Soup.AttrStr "price");
                              ("content", Soup.AttrStr "284.90")] [])
                          "284.90" (amount "284.90") _ _ _ _ _))
                (Soup.Tag "span"
                   [("class", Soup.AttrList ["price--line-through"])]
                   [Soup.NavigableString ("CHF" ++ String PyStr.nbsp "469.00 *")])
                ("CHF" ++ String PyStr.nbsp "") "469.00" " *"
                _ _ _ _ _ _);
    try (vm_compute; reflexivity).
  discriminate.
Defined.

Lemma get_price_reads_second_part_witness :
  _get_price price_thousands = Ok (amount "1").
Proof.
  refine (proj1 (get_price_reads_second_part price_thousands
                   (Soup.Tag "span" [("class", Soup.AttrList ["amount"])]
                      [Soup.NavigableString
                         (chf "1" ++ String PyStr.nbsp "299.00")])
                   _) "1" "299.00" _ _);
    vm_compute; reflexivity.
Defined.

Lemma registry_binds_configured_shops_witness :
  NoDup (map fst (shops (widget_config "both")))
  /\ dict_get widget_registry "s1" = Some 0%nat
  /\ dict_get widget_registry "s2" = None.
Proof.
  assert (H : NoDup (map fst (shops (widget_config "both"))))
    by (repeat constructor; intros []).
  split; [exact H|].
  pose proof (registry_binds_configured_shops ambient_globals
                (shops (widget_config "both")) (loaded "check_galaxus")
                widget_registry H eq_refl) as Hr.
  split; [exact (Hr "s1") | exact (Hr "s2")].
Defined.

Lemma unknown_shop_identifier_raises_witness :
  check_shop http_get html_parser widget_registry ("s2", "both") resolved
    = mkOutcome (Raise (KeyError "s2")) resolved "" [].
Proof.
  exact (unknown_shop_identifier_raises http_get html_parser ambient_globals
           (widget_config "both") (loaded "check_galaxus") widget_registry
           "s2" "both" resolved eq_refl eq_refl).
Defined.



Lemma successful_run_fetches_each_url_once_witness :
  value (run two_products (loaded "check_galaxus")) = Ok tt
  /\ requests (run two_products (loaded "check_galaxus"))
     = ["both"; "current-only"].
Proof.
  assert (H : value (run two_products (loaded "check_galaxus")) = Ok tt)
    by (vm_compute; reflexivity).
  split; [exact H|].
  exact (successful_run_fetches_each_url_once http_get html_parser
           ambient_globals two_products (loaded "check_galaxus") H).
Defined.

Lemma run_aborts_at_first_failure_witness :
  value (run three_products (loaded "check_galaxus")) = Raise (HTTPError 404)
  /\ stdout (run three_products (loaded "check_galaxus"))
     = "Checking Widget:" ++ newline
       ++ "  Galaxus: 49.00 CHF (statt 72.40 CHF)" ++ newline ++ newline
       ++ "Checking Gadget:" ++ newline
  /\ requests (run three_products (loaded "check_galaxus")) = ["both"; "gone"].
Proof.
  destruct (run_aborts_at_first_failure http_get html_parser ambient_globals
              three_products (loaded "check_galaxus") widget_registry
              [mkProduct "Widget" [("s1", "both")]]
              (mkProduct "Gadget" [("s1", "gone")])
              [mkProduct "Gizmo" [("s1", "both")]]
              (HTTPError 404) eq_refl eq_refl
              ltac:(vm_compute; reflexivity) ltac:(vm_compute; reflexivity))
    as (Hv & Hs & Hr).
  unfold run. split; [exact Hv|]. split.
  - rewrite Hs. vm_compute. reflexivity.
  - rewrite Hr. vm_compute. reflexivity.
Defined.

Lemma successful_run_prints_product_blocks_witness :
  stdout (run two_products (loaded "check_galaxus"))
    = "Checking Widget:" ++ newline
      ++ "  Galaxus: 49.00 CHF (statt 72.40 CHF)" ++ newline ++ newline
      ++ "Checking Gizmo:" ++ newline
      ++ "  Galaxus: 49.00 CHF" ++ newline ++ newline.
Proof.
  destruct (successful_run_prints_product_blocks http_get html_parser
              ambient_globals two_products (loaded "check_galaxus")
              widget_registry eq_refl ltac:(vm_compute; reflexivity))
    as [_ Hs].
  unfold run. rewrite Hs. vm_compute. reflexivity.
Defined.

(** [float] skips a non-breaking space before a number but not an
    information separator, which [str.isspace] and the class \s
    accept. *)
Lemma float_skips_blanks_only :
  PyFloat.of_string (String PyStr.nbsp "49") = Some 49%float
  /\ PyFloat.of_string (String (ascii_of_N 31) "49") = None
  /\ PyFloat.of_string ("49" ++ String (ascii_of_N 28) "") = None
  /\ PyStr.isspace (ascii_of_N 31) = true.
Proof. repeat split; vm_compute; reflexivity. Qed.
